(** * Glass card components: style resolution and the playback state machine

    A shallow embedding of the React components [GlassCard],
    [FrostedGlassPanel] and [MusicPlayer].  Lookup tables are the object
    literals of the source, kept as finite maps from property names to
    records of the literal strings; a component's render is a function of
    its props (and of its hook state), an event handler is a function of the
    state captured by the render that installed it. *)

From Stdlib Require Import ZArith QArith String Ascii List Sorted Lia.
From Stdlib Require Import DecimalString DecimalNat.
From stdpp Require Import base gmap strings list fin_maps.

Local Open Scope string_scope.
Local Open Scope Z_scope.

(** ** The fragment of JavaScript the components rely on *)

Module JS.

(** The numbers that reach the progress state: [Math.round] returns an
    integer, an infinity or NaN.  Negative zero is identified with zero
    ([Math.max(0, -0)] is [0], so the clamp cannot tell them apart). *)
Inductive number : Type :=
| NaN
| NegInf
| PosInf
| Fin (z : Z).

(** [a < b] of the language: false as soon as one side is NaN. *)
Definition ltb (a b : number) : bool :=
  match a, b with
  | NaN, _ | _, NaN => false
  | NegInf, NegInf => false
  | NegInf, _ => true
  | _, NegInf => false
  | PosInf, _ => false
  | Fin _, PosInf => true
  | Fin x, Fin y => x <? y
  end.

(** [Math.min(a, b)] and [Math.max(a, b)]: NaN is contagious. *)
Definition Math_min (a b : number) : number :=
  match a, b with
  | NaN, _ | _, NaN => NaN
  | _, _ => if ltb b a then b else a
  end.

Definition Math_max (a b : number) : number :=
  match a, b with
  | NaN, _ | _, NaN => NaN
  | _, _ => if ltb a b then b else a
  end.

(** Outcome of evaluating an expression that may raise. *)
Inductive completion (A : Type) : Type :=
| Normal (a : A)
| Throw (error : string).
Arguments Normal {A} a.
Arguments Throw {A} error.

Definition bind {A B} (c : completion A) (k : A -> completion B) : completion B :=
  match c with
  | Normal a => k a
  | Throw e => Throw e
  end.

Definition throws {A} (c : completion A) : bool :=
  match c with Normal _ => false | Throw _ => true end.

(** Property names every object literal inherits from [Object.prototype]. *)
Definition Object_prototype : list string :=
  [ "constructor"; "__proto__"; "hasOwnProperty"; "isPrototypeOf";
    "propertyIsEnumerable"; "toLocaleString"; "toString"; "valueOf";
    "__defineGetter__"; "__defineSetter__"; "__lookupGetter__";
    "__lookupSetter__" ].

(** Result of [table[key]] on an object literal used as a table: an own
    entry, a value found on the prototype chain, or [undefined]. *)
Inductive property (A : Type) : Type :=
| Undefined
| Inherited (name : string)
| Own (a : A).
Arguments Undefined {A}.
Arguments Inherited {A} name.
Arguments Own {A} a.

Definition get {A} (table : gmap string A) (key : string) : property A :=
  match table !! key with
  | Some a => Own a
  | None =>
      if bool_decide (key ∈ Object_prototype) then Inherited key else Undefined
  end.

(** [x || y] between two lookups: every own entry is an object and every
    inherited value is a function or [Object.prototype] itself, all truthy;
    only [undefined] lets the right operand through. *)
Definition or {A} (x y : property A) : property A :=
  match x with
  | Undefined => y
  | _ => x
  end.

(** What a lookup chain that ends in a literal default evaluates to: a table
    entry, or a foreign value carrying none of the table's fields. *)
Inductive resolved (A : Type) : Type :=
| Entry (a : A)
| Foreign (name : string).
Arguments Entry {A} a.
Arguments Foreign {A} name.

Definition or_default {A} (x : property A) (d : A) : resolved A :=
  match x with
  | Own a => Entry a
  | Inherited n => Foreign n
  | Undefined => Entry d
  end.

(** [value.f]: reading a field the foreign value lacks gives [undefined]. *)
Definition field {A B} (f : A -> B) (v : resolved A) : option B :=
  match v with
  | Entry a => Some (f a)
  | Foreign _ => None
  end.

(** String conversion inside [Array.prototype.join] and template literals. *)
Definition join_item (x : option string) : string :=
  match x with Some s => s | None => "" end.

Definition template_item (x : option string) : string :=
  match x with Some s => s | None => "undefined" end.

Fixpoint join (sep : string) (items : list (option string)) : string :=
  match items with
  | [] => ""
  | [x] => join_item x
  | x :: rest => join_item x +:+ sep +:+ join sep rest
  end.

(** [c.toUpperCase()] on one ASCII character. *)
Definition toUpperCase (c : ascii) : ascii :=
  let n := nat_of_ascii c in
  if ((97 <=? n) && (n <=? 122))%nat then ascii_of_nat (n - 32) else c.

(** [s.charAt(0).toUpperCase() + s.slice(1)] on the UTF-8 bytes of [s].
    Two characters outside ASCII have an ASCII upper case, the long s
    (U+017F, upper case S) and the dotless i (U+0131, upper case I).  Any
    other character outside ASCII is left as it is: its upper case is not
    an ASCII letter either, so the result names a property of a table with
    ASCII keys in neither case. *)
Definition capitalize (s : string) : string :=
  match s with
  | String "197" (String "191" rest) => String "S" rest
  | String "196" (String "177" rest) => String "I" rest
  | String c rest => String (toUpperCase c) rest
  | EmptyString => EmptyString
  end.

End JS.

(** ** Reading paint parameters off CSS strings

    The tables of the source hold class names and CSS values as strings.  The
    functions below read the numeric channels (an alpha, a radius in pixels,
    the layers of a [box-shadow]) off those strings. *)

Module CSS.

Definition digit (c : ascii) : option Z :=
  let n := Z.of_nat (nat_of_ascii c) in
  if (48 <=? n) && (n <=? 57) then Some (n - 48) else None.

(** Longest run of decimal digits at the head of [s]: its value, its
    length, and what follows it. *)
Fixpoint digits (acc : Z) (len : nat) (s : string) : Z * nat * string :=
  match s with
  | String c rest =>
      match digit c with
      | Some d => digits (10 * acc + d) (S len) rest
      | None => (acc, len, s)
      end
  | EmptyString => (acc, len, s)
  end.

Fixpoint strip_prefix (p s : string) : option string :=
  match p, s with
  | EmptyString, _ => Some s
  | String a p', String b s' => if Ascii.eqb a b then strip_prefix p' s' else None
  | String _ _, EmptyString => None
  end.

Fixpoint trim_left (s : string) : string :=
  match s with
  | String " " rest => trim_left rest
  | _ => s
  end.

(** A whole number followed by [unit], as in ["16px]"] or ["4px"]. *)
Definition number_with_unit (unit s : string) : option Z :=
  match digits 0 0 s with
  | (_, O, _) => None
  | (v, _, rest) => if String.eqb rest unit then Some v else None
  end.

(** A decimal numeral such as ["0.08"] followed by [close]. *)
Definition decimal (close s : string) : option Q :=
  match digits 0 0 s with
  | (_, O, _) => None
  | (i, _, String "." frac) =>
      match digits 0 0 frac with
      | (_, O, _) => None
      | (f, k, rest) =>
          if String.eqb rest close
          then Some (Qmake (i * 10 ^ Z.of_nat k + f) (Z.to_pos (10 ^ Z.of_nat k)))
          else None
      end
  | (i, _, rest) => if String.eqb rest close then Some (Qmake i 1) else None
  end.

(** Split at the commas that are outside parentheses. *)
Fixpoint split_layers (depth : nat) (cur : string) (s : string) : list string :=
  match s with
  | EmptyString => [cur]
  | String c rest =>
      if Ascii.eqb c "," then
        match depth with
        | O => cur :: split_layers O "" rest
        | _ => split_layers depth (cur +:+ String c "") rest
        end
      else if Ascii.eqb c "(" then split_layers (S depth) (cur +:+ String c "") rest
      else if Ascii.eqb c ")" then split_layers (Nat.pred depth) (cur +:+ String c "") rest
      else split_layers depth (cur +:+ String c "") rest
  end.

(** The alpha of ["rgba(r, g, b, a)"]. *)
Definition rgba_alpha (s : string) : option Q :=
  match strip_prefix "rgba(" s with
  | Some inner =>
      match split_layers 0 "" inner with
      | [_; _; _; a] => decimal ")" (trim_left a)
      | _ => None
      end
  | None => None
  end.

(** The alpha of a Tailwind colour class [prefix ++ "NN"], a percentage. *)
Definition class_alpha (prefix s : string) : option Q :=
  match strip_prefix prefix s with
  | Some pct =>
      match number_with_unit "" pct with
      | Some v => Some (Qmake v 100)
      | None => None
      end
  | None => None
  end.

(** One layer of a [box-shadow] value. *)
Record layer : Type := { inset : bool; geometry : string }.

Definition parse_layer (s : string) : layer :=
  let s := trim_left s in
  match strip_prefix "inset " s with
  | Some g => {| inset := true; geometry := g |}
  | None => {| inset := false; geometry := s |}
  end.

Definition shadow_layers (s : string) : list layer :=
  map parse_layer (split_layers 0 "" s).

Definition outer_count (ls : list layer) : nat :=
  length (filter (fun l => inset l = false) ls).

Definition inset_count (ls : list layer) : nat :=
  length (filter (fun l => inset l = true) ls).

End CSS.

(** ** GlassCard.jsx: the base shell *)

(** Rendered content handed to a shell as [children]. *)
Inductive node : Type :=
| Text (s : string)
| Element (tag : string) (content : string).

Module GlassCard.
Import JS.

Record hover_entry : Type := { hover_bg : string; hover_shadow : string }.

Record opacity_entry : Type := {
  bg : string;
  border : string;
  borderB : string;
  borderR : string;
  shadow : string;
  hover : hover_entry;
}.

Definition light : opacity_entry := {|
  bg := "bg-white/45";
  border := "border-white/60";
  borderB := "border-b-white/30";
  borderR := "border-r-white/30";
  shadow := "shadow-[0_8px_32px_0_rgba(31,38,135,0.04)]";
  hover := {| hover_bg := "hover:bg-white/55";
              hover_shadow := "hover:shadow-[0_12px_40px_0_rgba(31,38,135,0.08)]" |};
|}.

Definition standard : opacity_entry := {|
  bg := "bg-white/65";
  border := "border-white/80";
  borderB := "border-b-white/40";
  borderR := "border-r-white/40";
  shadow := "shadow-[0_8px_32px_0_rgba(31,38,135,0.07)]";
  hover := {| hover_bg := "hover:bg-white/75";
              hover_shadow := "hover:shadow-[0_12px_40px_0_rgba(31,38,135,0.12)]" |};
|}.

Definition dark : opacity_entry := {|
  bg := "bg-white/85";
  border := "border-white/95";
  borderB := "border-b-white/70";
  borderR := "border-r-white/70";
  shadow := "shadow-[0_8px_32px_0_rgba(31,38,135,0.1)]";
  hover := {| hover_bg := "hover:bg-white/90";
              hover_shadow := "hover:shadow-[0_12px_40px_0_rgba(31,38,135,0.14)]" |};
|}.

Definition opaque : opacity_entry := {|
  bg := "bg-white/95";
  border := "border-white/100";
  borderB := "border-b-white/80";
  borderR := "border-r-white/80";
  shadow := "shadow-[0_8px_32px_0_rgba(31,38,135,0.12)]";
  hover := {| hover_bg := "hover:bg-white/98";
              hover_shadow := "hover:shadow-[0_12px_40px_0_rgba(31,38,135,0.15)]" |};
|}.

Definition opacityMap : gmap string opacity_entry :=
  list_to_map
    [ ("light", light); ("standard", standard); ("dark", dark); ("opaque", opaque) ].

Definition variantClasses : gmap string (list string) :=
  list_to_map
    [ ("default", ["w-full"; "sm:w-80"]);
      ("small", ["w-36"; "h-36"]);
      ("large", ["w-full"; "sm:w-96"]) ].

(** [opacityMap[opacity] || opacityMap.standard] *)
Definition currentOpacity (opacity : string) : resolved opacity_entry :=
  or_default (get opacityMap opacity) standard.

Definition baseClasses (cur : resolved opacity_entry) : list (option string) :=
  [ field bg cur;
    Some "backdrop-blur-[16px]";
    Some "-webkit-backdrop-filter-blur-[16px]";
    Some "border";
    field border cur;
    field borderB cur;
    field borderR cur;
    field shadow cur;
    Some "rounded-3xl";
    Some "p-6";
    Some "transition-all";
    Some "duration-300";
    Some "ease-in-out" ].

(** [currentOpacity.hover.shadow] reads a field of [undefined] when the
    looked-up value is not a table entry. *)
Definition interactiveClasses (interactive : bool) (cur : resolved opacity_entry)
  : completion (list (option string)) :=
  if interactive then
    match cur with
    | Entry e =>
        Normal [ Some (hover_shadow (hover e));
                 Some "hover:-translate-y-1";
                 Some (hover_bg (hover e));
                 Some "cursor-pointer" ]
    | Foreign _ =>
        Throw "TypeError: Cannot read properties of undefined (reading 'shadow')"
    end
  else Normal [].

(** [...(variantClasses[variant] || variantClasses.default)]: the spread
    needs an iterable, which no inherited value is. *)
Definition variantSpread (variant : string) : completion (list (option string)) :=
  match or_default (get variantClasses variant) ["w-full"; "sm:w-80"] with
  | Entry l => Normal (map Some l)
  | Foreign _ => Throw "TypeError: Spread syntax requires ...iterable"
  end.

(** The class list of the card, in the order the source assembles it. *)
Definition resolve (opacity variant : string) (interactive : bool) (className : string)
  : completion (list (option string)) :=
  let cur := currentOpacity opacity in
  let base := baseClasses cur in
  bind (interactiveClasses interactive cur) (fun inter =>
  bind (variantSpread variant) (fun var =>
  Normal (base ++ var ++ inter ++ [Some className])%list)).

Definition allClasses (opacity variant : string) (interactive : bool) (className : string)
  : completion string :=
  bind (resolve opacity variant interactive className) (fun l => Normal (join " " l)).

Record props : Type := {
  children : option node;
  className : string;
  variant : string;
  opacity : string;
  interactive : bool;
  role : string;
  ariaLabel : option string;
  ariaDescribedBy : option string;
  rest : list (string * string);
}.

(** The destructuring defaults of the component. *)
Definition defaults (kids : option node) : props := {|
  children := kids;
  className := "";
  variant := "default";
  opacity := "standard";
  interactive := true;
  role := "article";
  ariaLabel := None;
  ariaDescribedBy := None;
  rest := [];
|}.

Record article : Type := {
  article_className : string;
  article_role : string;
  article_aria_label : option string;
  article_aria_describedby : option string;
  article_rest : list (string * string);
  article_children : option node;
}.

(** The body of the component.  [propTypes] is a static annotation on the
    component object; the body never consults it. *)
Definition render (p : props) : completion article :=
  bind (allClasses (opacity p) (variant p) (interactive p) (className p)) (fun cls =>
  Normal {| article_className := cls;
            article_role := role p;
            article_aria_label := ariaLabel p;
            article_aria_describedby := ariaDescribedBy p;
            article_rest := rest p;
            article_children := children p |}).

(** [GlassCard.propTypes]: the values announced for the two enumerated
    props, the opacities from the most to the least translucent. *)
Definition propTypes_opacity : list string := ["light"; "standard"; "dark"; "opaque"].
Definition propTypes_variant : list string := ["default"; "small"; "large"].

(** The paint channels carried by a class list. *)
Definition backgroundAlpha (classes : list (option string)) : option Q :=
  match classes with
  | Some c :: _ => CSS.class_alpha "bg-white/" c
  | _ => None
  end.

Definition blurRadiusPx (classes : list (option string)) : option Z :=
  match classes with
  | _ :: Some c :: _ =>
      match CSS.strip_prefix "backdrop-blur-[" c with
      | Some r => CSS.number_with_unit "px]" r
      | None => None
      end
  | _ => None
  end.

(** A channel of a resolution that may have raised. *)
Definition channel {A} (f : list (option string) -> option A)
    (c : completion (list (option string))) : option A :=
  match c with
  | Normal classes => f classes
  | Throw _ => None
  end.

End GlassCard.

(** ** FrostedGlassPanel: the alternate shell *)

Module FrostedGlassPanel.
Import JS.

Record config_entry : Type := {
  bg : string;
  border : string;
  blur : string;
  shadow : string;
}.

Definition contentLight : config_entry := {|
  bg := "rgba(255, 255, 255, 0.08)";
  border := "rgba(255, 255, 255, 0.15)";
  blur := "4px";
  shadow := "0 8px 20px rgba(0, 0, 0, 0.15), inset 0 1px 0 rgba(255, 255, 255, 0.4), inset 0 -1px 0 rgba(0, 0, 0, 0.08), inset -1px -1px 4px rgba(255, 255, 255, 0.1), inset 1px 1px 4px rgba(0, 0, 0, 0.04)";
|}.

Definition contentStandard : config_entry := {|
  bg := "rgba(255, 255, 255, 0.12)";
  border := "rgba(255, 255, 255, 0.2)";
  blur := "6px";
  shadow := "0 10px 30px rgba(0, 0, 0, 0.2), inset 0 1px 0 rgba(255, 255, 255, 0.5), inset 0 -1px 0 rgba(0, 0, 0, 0.1), inset -1px -1px 5px rgba(255, 255, 255, 0.12), inset 1px 1px 5px rgba(0, 0, 0, 0.05)";
|}.

Definition contentDark : config_entry := {|
  bg := "rgba(255, 255, 255, 0.18)";
  border := "rgba(255, 255, 255, 0.25)";
  blur := "8px";
  shadow := "0 12px 35px rgba(0, 0, 0, 0.25), inset 0 1px 0 rgba(255, 255, 255, 0.6), inset 0 -1px 0 rgba(0, 0, 0, 0.12), inset -1px -1px 6px rgba(255, 255, 255, 0.15), inset 1px 1px 6px rgba(0, 0, 0, 0.06)";
|}.

Definition navLight : config_entry := {|
  bg := "rgba(255, 255, 255, 0.15)";
  border := "rgba(255, 255, 255, 0.25)";
  blur := "10px";
  shadow := "0 15px 40px rgba(0, 0, 0, 0.3), inset 0 1px 0 rgba(255, 255, 255, 0.5), inset 0 -1px 0 rgba(0, 0, 0, 0.15), inset -2px -2px 8px rgba(255, 255, 255, 0.15), inset 2px 2px 8px rgba(0, 0, 0, 0.08)";
|}.

Definition navStandard : config_entry := {|
  bg := "rgba(255, 255, 255, 0.25)";
  border := "rgba(255, 255, 255, 0.3)";
  blur := "12px";
  shadow := "0 20px 60px rgba(0, 0, 0, 0.4), inset 0 1px 0 rgba(255, 255, 255, 0.6), inset 0 -1px 0 rgba(0, 0, 0, 0.2), inset -2px -2px 8px rgba(255, 255, 255, 0.2), inset 2px 2px 8px rgba(0, 0, 0, 0.1)";
|}.

Definition navDark : config_entry := {|
  bg := "rgba(255, 255, 255, 0.35)";
  border := "rgba(255, 255, 255, 0.4)";
  blur := "14px";
  shadow := "0 25px 70px rgba(0, 0, 0, 0.45), inset 0 1px 0 rgba(255, 255, 255, 0.7), inset 0 -1px 0 rgba(0, 0, 0, 0.25), inset -2px -2px 10px rgba(255, 255, 255, 0.25), inset 2px 2px 10px rgba(0, 0, 0, 0.12)";
|}.

(** The four entries kept for the older API. *)
Definition light : config_entry := {|
  bg := "rgba(255, 255, 255, 0.15)";
  border := "rgba(255, 255, 255, 0.25)";
  blur := "10px";
  shadow := "0 15px 40px rgba(0, 0, 0, 0.3), inset 0 1px 0 rgba(255, 255, 255, 0.5), inset 0 -1px 0 rgba(0, 0, 0, 0.15), inset -2px -2px 8px rgba(255, 255, 255, 0.15), inset 2px 2px 8px rgba(0, 0, 0, 0.08)";
|}.

Definition standard : config_entry := {|
  bg := "rgba(255, 255, 255, 0.25)";
  border := "rgba(255, 255, 255, 0.3)";
  blur := "12px";
  shadow := "0 20px 60px rgba(0, 0, 0, 0.4), inset 0 1px 0 rgba(255, 255, 255, 0.6), inset 0 -1px 0 rgba(0, 0, 0, 0.2), inset -2px -2px 8px rgba(255, 255, 255, 0.2), inset 2px 2px 8px rgba(0, 0, 0, 0.1)";
|}.

Definition dark : config_entry := {|
  bg := "rgba(255, 255, 255, 0.35)";
  border := "rgba(255, 255, 255, 0.4)";
  blur := "14px";
  shadow := "0 25px 70px rgba(0, 0, 0, 0.45), inset 0 1px 0 rgba(255, 255, 255, 0.7), inset 0 -1px 0 rgba(0, 0, 0, 0.25), inset -2px -2px 10px rgba(255, 255, 255, 0.25), inset 2px 2px 10px rgba(0, 0, 0, 0.12)";
|}.

Definition opaque : config_entry := {|
  bg := "rgba(255, 255, 255, 0.45)";
  border := "rgba(255, 255, 255, 0.5)";
  blur := "16px";
  shadow := "0 30px 80px rgba(0, 0, 0, 0.5), inset 0 1px 0 rgba(255, 255, 255, 0.8), inset 0 -1px 0 rgba(0, 0, 0, 0.3), inset -2px -2px 12px rgba(255, 255, 255, 0.3), inset 2px 2px 12px rgba(0, 0, 0, 0.15)";
|}.

Definition opacityConfig : gmap string config_entry :=
  list_to_map
    [ ("contentLight", contentLight); ("contentStandard", contentStandard);
      ("contentDark", contentDark);
      ("navLight", navLight); ("navStandard", navStandard); ("navDark", navDark);
      ("light", light); ("standard", standard); ("dark", dark); ("opaque", opaque) ].

(** The values of [opacityConfig]. *)
Definition entries : list config_entry :=
  [ contentLight; contentStandard; contentDark; navLight; navStandard; navDark;
    light; standard; dark; opaque ].

Record size_entry : Type := {
  width : string;
  padding : string;
  borderRadius : string;
}.

Definition small : size_entry :=
  {| width := "280px"; padding := "20px"; borderRadius := "20px" |}.
Definition medium : size_entry :=
  {| width := "400px"; padding := "30px"; borderRadius := "25px" |}.
Definition large : size_entry :=
  {| width := "600px"; padding := "40px"; borderRadius := "30px" |}.
Definition fullWidth : size_entry :=
  {| width := "100%"; padding := "40px"; borderRadius := "25px" |}.

Definition sizeConfig : gmap string size_entry :=
  list_to_map
    [ ("small", small); ("medium", medium); ("large", large); ("fullWidth", fullWidth) ].

Definition configKey (variant opacity : string) : string :=
  if String.eqb variant "nav"
  then "nav" +:+ capitalize opacity
  else "content" +:+ capitalize opacity.

(** [opacityConfig[configKey] || opacityConfig[opacity] || opacityConfig.standard] *)
Definition config (variant opacity : string) : resolved config_entry :=
  or_default
    (or (get opacityConfig (configKey variant opacity)) (get opacityConfig opacity))
    standard.

(** [sizeConfig[size] || sizeConfig.medium] *)
Definition sizeStyle (size : string) : resolved size_entry :=
  or_default (get sizeConfig size) medium.

Record style : Type := {
  style_position : string;
  style_width : option string;
  style_padding : option string;
  style_background : option string;
  style_backdropFilter : string;
  style_WebkitBackdropFilter : string;
  style_border : string;
  style_borderRadius : option string;
  style_boxShadow : option string;
  style_overflow : string;
  style_cursor : option string;
  style_transition : option string;
}.

(** The [style] object of the panel. *)
Definition resolve (opacity variant size : string) (interactive : bool) : style :=
  let cfg := config variant opacity in
  let sz := sizeStyle size in
  {| style_position := "relative";
     style_width := field width sz;
     style_padding := field padding sz;
     style_background := field bg cfg;
     style_backdropFilter := "blur(" +:+ template_item (field blur cfg) +:+ ")";
     style_WebkitBackdropFilter := "blur(" +:+ template_item (field blur cfg) +:+ ")";
     style_border := "1px solid " +:+ template_item (field border cfg);
     style_borderRadius := field borderRadius sz;
     style_boxShadow := field shadow cfg;
     style_overflow := "hidden";
     style_cursor := if interactive then Some "pointer" else None;
     style_transition := if interactive then Some "all 0.3s ease" else None |}.

Record props : Type := {
  children : option node;
  className : string;
  opacity : string;
  variant : string;
  size : string;
  showLabel : bool;
  label : string;
  interactive : bool;
}.

Definition defaults (kids : option node) : props := {|
  children := kids;
  className := "";
  opacity := "standard";
  variant := "content";
  size := "medium";
  showLabel := true;
  label := "";
  interactive := true;
|}.

Record panel : Type := {
  panel_style : style;
  panel_className : string;
  panel_highlight : string;
  panel_label : option string;
  panel_children : option node;
}.

(** Alpha of the highlight edge, as the template literal prints it. *)
Definition highlightAlpha (opacity : string) : string :=
  if String.eqb opacity "opaque" then "0.7"
  else if String.eqb opacity "dark" then "0.6"
  else "0.5".

Definition render (p : props) : panel := {|
  panel_style := resolve (opacity p) (variant p) (size p) (interactive p);
  panel_className := className p;
  panel_highlight :=
    "linear-gradient(90deg, transparent, rgba(255, 255, 255, "
      +:+ highlightAlpha (opacity p) +:+ "), transparent)";
  panel_label :=
    if showLabel p && negb (String.eqb (label p) "") then Some (label p) else None;
  panel_children := children p;
|}.

(** [FrostedGlassPanel.propTypes]: the values announced for the three
    enumerated props, the opacities from the most to the least translucent. *)
Definition propTypes_opacity : list string := ["light"; "standard"; "dark"; "opaque"].
Definition propTypes_variant : list string := ["content"; "nav"].
Definition propTypes_size : list string := ["small"; "medium"; "large"; "fullWidth"].

(** The paint channels of a resolved [style]. *)
Definition backgroundAlpha (st : style) : option Q :=
  match style_background st with
  | Some b => CSS.rgba_alpha b
  | None => None
  end.

Definition blurRadiusPx (st : style) : option Z :=
  match CSS.strip_prefix "blur(" (style_backdropFilter st) with
  | Some r => CSS.number_with_unit "px)" r
  | None => None
  end.

Definition shadowLayers (st : style) : list CSS.layer :=
  match style_boxShadow st with
  | Some s => CSS.shadow_layers s
  | None => []
  end.

End FrostedGlassPanel.

(** ** MusicPlayer.jsx: the playback card *)

Module MusicPlayer.
Import JS.

(** Hook state of one mounted player. *)
Record state : Type := {
  isPlaying : bool;
  currentProgress : number;
}.

Definition setIsPlaying (b : bool) (s : state) : state :=
  {| isPlaying := b; currentProgress := currentProgress s |}.

Definition setCurrentProgress (v : number) (s : state) : state :=
  {| isPlaying := isPlaying s; currentProgress := v |}.

Section Component.
(** Whatever the caller's callback acts upon. *)
Context {W : Type}.

Record props : Type := {
  title : string;
  artist : string;
  progress : number;
  onPlayChange : option (bool -> W -> W);
}.

(** The destructuring defaults, with an optional callback. *)
Definition defaults (cb : option (bool -> W -> W)) : props := {|
  title := "Now Playing";
  artist := "Glass Animals - Heat Waves";
  progress := Fin 60;
  onPlayChange := cb;
|}.

(** What lies outside the hook state: the caller's world and the focus. *)
Record env : Type := {
  world : W;
  buttonFocused : bool;
}.

(** [useState(false)] and [useState(progress)] at the first render. *)
Definition mount (p : props) : state :=
  {| isPlaying := false; currentProgress := progress p |}.

(** [setIsPlaying(!isPlaying); onPlayChange?.(!isPlaying);
    buttonRef.current?.focus()] with [isPlaying] the value the render
    captured. *)
Definition handlePlayToggle (p : props) (s : state) (e : env) : state * env :=
  let s' := setIsPlaying (negb (isPlaying s)) s in
  let w' :=
    match onPlayChange p with
    | Some callback => callback (negb (isPlaying s)) (world e)
    | None => world e
    end in
  (s', {| world := w'; buttonFocused := true |}).

(** The third component tells whether [e.preventDefault()] ran. *)
Definition handleKeyDown (p : props) (code : string) (s : state) (e : env)
  : state * env * bool :=
  if String.eqb code "Space" || String.eqb code "Enter"
  then (handlePlayToggle p s e, true)
  else (s, e, false).

(** [Math.max(0, Math.min(100, newProgress))] *)
Definition clamp (newProgress : number) : number :=
  Math_max (Fin 0) (Math_min (Fin 100) newProgress).

(** [newProgress] is the value of
    [Math.round(((e.clientX - rect.left) / rect.width) * 100)]. *)
Definition handleProgressClick (newProgress : number) (s : state) (e : env)
  : state * env :=
  (setCurrentProgress (clamp newProgress) s, e).

Inductive event : Type :=
| ButtonClick
| ButtonKeyDown (code : string)
| ProgressbarKeyDown (code : string)
| ProgressbarClick (newProgress : number).

(** One event delivered to the handlers of the current render, followed
    by the re-render with the committed state. *)
Definition dispatch (p : props) (ev : event) (c : state * env) : state * env :=
  let '(s, e) := c in
  match ev with
  | ButtonClick => handlePlayToggle p s e
  | ButtonKeyDown code => fst (handleKeyDown p code s e)
  | ProgressbarKeyDown code => fst (handleKeyDown p code s e)
  | ProgressbarClick v => handleProgressClick v s e
  end.

Fixpoint run (p : props) (evs : list event) (c : state * env) : state * env :=
  match evs with
  | [] => c
  | ev :: rest => run p rest (dispatch p ev c)
  end.

(** States a mounted player can be in. *)
Inductive reachable (p : props) : state -> Prop :=
| reachable_mount : reachable p (mount p)
| reachable_step s e ev :
    reachable p s -> reachable p (fst (dispatch p ev (s, e))).

(** The attributes and texts of the rendered card. *)
Record view : Type := {
  card_classes : completion string;
  card_aria_label : string;
  card_role : string;
  heading : string;
  byline : string;
  progressbar_aria_valuenow : number;
  progressbar_aria_valuemin : string;
  progressbar_aria_valuemax : string;
  button_aria_pressed : bool;
  button_aria_label : string;
  button_text : string;
  live_region : string;
}.

Definition render (p : props) (s : state) : view := {|
  card_classes := GlassCard.allClasses "standard" "large" true "w-80";
  card_aria_label := "音乐播放控制面板";
  card_role := "region";
  heading := title p;
  byline := artist p;
  progressbar_aria_valuenow := currentProgress s;
  progressbar_aria_valuemin := "0";
  progressbar_aria_valuemax := "100";
  button_aria_pressed := isPlaying s;
  button_aria_label := if isPlaying s then "暂停播放" else "开始播放";
  button_text := if isPlaying s then "⏸暂停" else "▶播放";
  live_region := if isPlaying s then "正在播放" else "已暂停";
|}.

(** The status a live-region text announces. *)
Definition announced (text : string) : option bool :=
  if String.eqb text "正在播放" then Some true
  else if String.eqb text "已暂停" then Some false
  else None.

(** The range-value triple of the progress bar. *)
Definition range_values (v : view) : number * string * string :=
  (progressbar_aria_valuenow v, progressbar_aria_valuemin v, progressbar_aria_valuemax v).

End Component.

Arguments props W : clear implicits.
Arguments env W : clear implicits.

(** A callback that records the payload of each call, oldest first. *)
Definition record_call (b : bool) (calls : list bool) : list bool := calls ++ [b].

End MusicPlayer.

(** ** Further paint channels of the base shell *)

Module GlassCardChannels.
Import JS GlassCard.

(** The alpha of a colour written [rgba(r,g,b,a)] and followed by [close]. *)
Definition colour_alpha (close s : string) : option Q :=
  match CSS.strip_prefix "rgba(" s with
  | Some inner =>
      match CSS.split_layers 0 "" inner with
      | [_; _; _; a] => CSS.decimal close (CSS.trim_left a)
      | _ => None
      end
  | None => None
  end.

(** Alpha of the border colour: [border-white/NN] paints the four edges,
    [border-b-white/NN] and [border-r-white/NN] repaint the bottom and the
    right one. *)
Definition topLeftAlpha (e : opacity_entry) : option Q :=
  CSS.class_alpha "border-white/" (border e).

Definition bottomAlpha (e : opacity_entry) : option Q :=
  CSS.class_alpha "border-b-white/" (borderB e).

Definition rightAlpha (e : opacity_entry) : option Q :=
  CSS.class_alpha "border-r-white/" (borderR e).

(** Resting and hovered alpha of the background and of the shadow colour. *)
Definition restingBackground (e : opacity_entry) : option Q :=
  CSS.class_alpha "bg-white/" (bg e).

Definition hoverBackground (e : opacity_entry) : option Q :=
  CSS.class_alpha "hover:bg-white/" (hover_bg (hover e)).

Definition restingShadow (e : opacity_entry) : option Q :=
  match CSS.strip_prefix "shadow-[0_8px_32px_0_" (shadow e) with
  | Some colour => colour_alpha ")]" colour
  | None => None
  end.

Definition hoverShadow (e : opacity_entry) : option Q :=
  match CSS.strip_prefix "hover:shadow-[0_12px_40px_0_" (hover_shadow (hover e)) with
  | Some colour => colour_alpha ")]" colour
  | None => None
  end.

(** Whether a class only takes effect under the pointer. *)
Definition hover_class (c : option string) : bool :=
  match c with
  | Some s =>
      match CSS.strip_prefix "hover:" s with
      | Some _ => true
      | None => String.eqb s "cursor-pointer"
      end
  | None => false
  end.

End GlassCardChannels.

(** ** GlassTransparencyDemo.jsx: the table of opacity variants *)

Module GlassTransparencyDemo.

Record variant_row : Type := { value : string; percentage : string }.

(** [value] and [percentage] of the rows of [opacityVariants]. *)
Definition opacityVariants : list variant_row :=
  [ {| value := "light"; percentage := "45%" |};
    {| value := "standard"; percentage := "65%" |};
    {| value := "dark"; percentage := "85%" |};
    {| value := "opaque"; percentage := "95%" |} ].

(** The [opacity] of the rows of [sceneCards]. *)
Definition sceneCards : list string :=
  [ "light"; "light"; "standard"; "standard"; "dark"; "dark"; "opaque"; "opaque" ].

(** The fraction a percentage stands for. *)
Definition fraction (pct : string) : option Q :=
  match CSS.number_with_unit "%" pct with
  | Some v => Some (Qmake v 100)
  | None => None
  end.

End GlassTransparencyDemo.

(** ** FrostedGlassPanel: the hover handlers and the root element *)

Module FrostedGlassPanelHover.
Import JS FrostedGlassPanel.

(** Membership in the character class [[0-9.]]. *)
Definition in_class (c : ascii) : bool :=
  match CSS.digit c with
  | Some _ => true
  | None => Ascii.eqb c "."
  end.

(** Length of the longest run of class characters at the head of [s]. *)
Fixpoint class_run (s : string) : nat :=
  match s with
  | String c rest => if in_class c then S (class_run rest) else O
  | EmptyString => O
  end.

Fixpoint drop (n : nat) (s : string) : string :=
  match n, s with
  | S k, String _ rest => drop k rest
  | _, _ => s
  end.

(** Length of the match of [/rgba\(0, 0, 0, [0-9.]+\)/] at the head of [s].
    The closing parenthesis is outside the class, so the greedy run is the
    only candidate. *)
Definition match_length (s : string) : option nat :=
  match CSS.strip_prefix "rgba(0, 0, 0, " s with
  | Some t =>
      match class_run t with
      | O => None
      | S k =>
          match drop (S k) t with
          | String ")" _ => Some (14 + S k + 1)%nat
          | _ => None
          end
      end
  | None => None
  end.

(** [s.replace(/rgba\(0, 0, 0, [0-9.]+\)/g, 'rgba(0, 0, 0, 0.5)')]: matches
    are taken leftmost first and do not overlap; [skip] counts the
    characters of the current match still to be passed over. *)
Fixpoint replace_from (skip : nat) (s : string) : string :=
  match s with
  | EmptyString => EmptyString
  | String c rest =>
      match skip with
      | S k => replace_from k rest
      | O =>
          match match_length s with
          | Some n => "rgba(0, 0, 0, 0.5)" +:+ replace_from (Nat.pred n) rest
          | None => String c (replace_from O rest)
          end
      end
  end.

Definition replace_black (s : string) : string := replace_from O s.

(** The two declarations of the root element the handlers write. *)
Record inline : Type := {
  transform : option string;
  boxShadow : option string;
}.


(** [handleHover]: the second component is the error raised, if any.  The
    transform is written before [config.shadow.replace] is evaluated. *)
Definition handleHover (opacity variant : string) (interactive : bool) (el : inline)
  : inline * option string :=
  if interactive then
    match config variant opacity with
    | Entry e =>
        ({| transform := Some "translateY(-5px)";
            boxShadow := Some (replace_black (shadow e)) |}, None)
    | Foreign _ =>
        ({| transform := Some "translateY(-5px)"; boxShadow := boxShadow el |},
         Some "TypeError: Cannot read properties of undefined (reading 'replace')")
    end
  else (el, None).


(** The colour of a shadow layer: what follows the last space before
    [rgba(]. *)
Fixpoint colour_of (s : string) : string :=
  match s with
  | EmptyString => EmptyString
  | String c rest =>
      match CSS.strip_prefix "rgba(" s with
      | Some _ => s
      | None => colour_of rest
      end
  end.

(** The offsets and radii of a layer: what precedes its colour. *)
Fixpoint offsets_of (s : string) : string :=
  match s with
  | EmptyString => EmptyString
  | String c rest =>
      match CSS.strip_prefix "rgba(" s with
      | Some _ => EmptyString
      | None => String c (offsets_of rest)
      end
  end.

Definition is_black (l : CSS.layer) : bool :=
  match CSS.strip_prefix "rgba(0, 0, 0, " (colour_of (CSS.geometry l)) with
  | Some _ => true
  | None => false
  end.

Definition layer_alpha (l : CSS.layer) : option Q :=
  CSS.rgba_alpha (colour_of (CSS.geometry l)).

(** Attributes of the root element.  The props the component does not
    name are spread last, so they win over the four it sets itself. *)
Inductive attribute (V : Type) : Type :=
| ComputedStyle (st : style)
| ClassName (s : string)
| HoverStart
| HoverEnd
| Supplied (v : V).
Arguments ComputedStyle {V} st.
Arguments ClassName {V} s.
Arguments HoverStart {V}.
Arguments HoverEnd {V}.
Arguments Supplied {V} v.

Definition own_attributes {V} (p : props) : gmap string (attribute V) :=
  list_to_map
    [ ("style", ComputedStyle (resolve (opacity p) (variant p) (size p) (interactive p)));
      ("className", ClassName (className p));
      ("onMouseEnter", HoverStart);
      ("onMouseLeave", HoverEnd) ].

Definition root_attributes {V} (p : props) (rest : gmap string V)
  : gmap string (attribute V) :=
  (Supplied <$> rest) ∪ own_attributes p.

End FrostedGlassPanelHover.

(** ** Event sequences of the playback card *)

Module MusicPlayerEvents.
Import JS MusicPlayer.

(** The events whose handler reaches [handlePlayToggle]. *)
Definition toggles (ev : event) : bool :=
  match ev with
  | ButtonClick => true
  | ButtonKeyDown code | ProgressbarKeyDown code =>
      String.eqb code "Space" || String.eqb code "Enter"
  | ProgressbarClick _ => false
  end.

(** The position of the last click on the progress bar, if there was one. *)
Fixpoint last_click (evs : list event) : option number :=
  match evs with
  | [] => None
  | ev :: rest =>
      match last_click rest with
      | Some v => Some v
      | None => match ev with ProgressbarClick v => Some v | _ => None end
      end
  end.

(** The clicks on the progress bar that carry NaN. *)
Definition click_is_NaN (ev : event) : bool :=
  match ev with
  | ProgressbarClick NaN => true
  | _ => false
  end.

(** A stored progress inside the closed interval. *)
Definition in_range (v : number) : bool :=
  match v with
  | Fin z => (0 <=? z) && (z <=? 100)
  | _ => false
  end.

End MusicPlayerEvents.

(** ** IconCard: the icon card

    The card as built from the props it declares; [suffix] is the string
    [Math.random().toString(36).slice(2, 9)] drawn by the render. *)

Module IconCard.
Import JS.

(** The event handed to [onClick]: the click, or the key-down that stands
    for it. *)
Inductive activation : Type :=
| Click
| KeyDown (code : string).

Section Component.
Context {W : Type}.

Record props : Type := {
  icon : string;
  label : string;
  description : option string;
  onClick : option (activation -> W -> W);
}.

(** Truthiness of the optional [description]. *)
Definition described (p : props) : bool :=
  match description p with
  | Some d => negb (String.eqb d "")
  | None => false
  end.

Definition iconBoxId (suffix : string) : string :=
  "icon-card-description-" +:+ suffix.

(** [onClick={onClick}] on the card. *)
Definition handleClick (p : props) (w : W) : W :=
  match onClick p with
  | Some callback => callback Click w
  | None => w
  end.

(** The [onKeyDown] of the card; the second component tells whether
    [e.preventDefault()] ran. *)
Definition handleKeyDown (p : props) (code : string) (w : W) : W * bool :=
  match onClick p with
  | Some callback =>
      if String.eqb code "Space" || String.eqb code "Enter"
      then (callback (KeyDown code) w, true)
      else (w, false)
  | None => (w, false)
  end.

Record view : Type := {
  card_classes : completion string;
  card_role : string;
  card_aria_label : string;
  card_aria_describedby : option string;
  card_tabIndex : Z;
  icon_box : string;
  label_text : string;
  description_paragraph : option (string * string);
}.

Definition render (p : props) (suffix : string) : view := {|
  card_classes :=
    GlassCard.allClasses "standard" "small" true
      "flex flex-col items-center justify-center gap-3";
  card_role := "button";
  card_aria_label := label p;
  card_aria_describedby := if described p then Some (iconBoxId suffix) else None;
  card_tabIndex := match onClick p with Some _ => 0 | None => -1 end;
  icon_box := icon p;
  label_text := label p;
  description_paragraph :=
    match description p with
    | Some d => if negb (String.eqb d "") then Some (iconBoxId suffix, d) else None
    | None => None
    end;
|}.

End Component.

Arguments props W : clear implicits.

End IconCard.

(** ** TripCard: the trip card *)

Module TripCard.
Import JS.

(** [participants] ranges over the whole numbers, the infinities and NaN. *)
Record props : Type := {
  title : string;
  dateRange : string;
  participants : number;
}.

Definition defaults : props :=
  {| title := "Kyoto Trip"; dateRange := "Feb 24 - Mar 02"; participants := Fin 2 |}.

(** [ToLength]: the length read off [{ length: participants }]. *)
Definition ToLength (n : number) : Z :=
  match n with
  | NaN | NegInf => 0
  | PosInf => 2 ^ 53 - 1
  | Fin z => Z.min (Z.max z 0) (2 ^ 53 - 1)
  end.

(** Length of [Array.from({ length: n })]: the array constructor refuses a
    length above [2^32 - 1]. *)
Definition Array_from_length (n : number) : completion nat :=
  let len := ToLength n in
  if 2 ^ 32 - 1 <? len
  then Throw "RangeError: Invalid array length"
  else Normal (Z.to_nat len).

(** Decimal numeral of a natural number. *)
Definition decimal (n : nat) : string :=
  DecimalString.NilZero.string_of_uint (Nat.to_uint n).

Record avatar : Type := {
  key : nat;
  avatar_aria_label : string;
}.

Definition avatar_of (index : nat) : avatar :=
  {| key := index; avatar_aria_label := "参与者 " +:+ decimal (index + 1) |}.

Definition avatars (p : props) : completion (list avatar) :=
  bind (Array_from_length (participants p)) (fun n =>
  Normal (map avatar_of (seq 0 n))).

Record view : Type := {
  card_classes : completion string;
  card_role : string;
  card_aria_label : string;
  heading : string;
  date_aria_label : string;
  date_text : string;
  participant_list : list avatar;
}.

(** The children are evaluated in the body of the component, before the
    card is built. *)
Definition render (p : props) : completion view :=
  bind (avatars p) (fun l =>
  Normal {| card_classes := GlassCard.allClasses "standard" "large" true "w-80";
            card_role := "region";
            card_aria_label := title p +:+ "旅行计划，" +:+ dateRange p;
            heading := title p;
            date_aria_label := "旅行日期: " +:+ dateRange p;
            date_text := dateRange p;
            participant_list := l |}).

End TripCard.

(** * Properties *)

(** ** The clamp of the progress bar *)

Section Clamp.
Import JS MusicPlayer.

Lemma clamp_cases (v : number) :
  clamp v = if ltb v (Fin 0) then Fin 0 else if ltb (Fin 100) v then Fin 100 else v.
Proof.
  destruct v as [ | | | z]; try reflexivity.
  unfold clamp; simpl.
  destruct (Z.ltb_spec z 100) as [Hlt | Hge]; simpl.
  - destruct (Z.ltb_spec 0 z), (Z.ltb_spec z 0), (Z.ltb_spec 100 z);
      try reflexivity; try lia.
    f_equal; lia.
  - destruct (Z.ltb_spec z 0), (Z.ltb_spec 100 z); try reflexivity; try lia.
    f_equal; lia.
Qed.

(** Away from NaN the clamp lands in the closed interval. *)
Lemma clamp_in_range (v : number) :
  v <> NaN -> exists r, clamp v = Fin r /\ 0 <= r <= 100.
Proof.
  intros Hv. rewrite clamp_cases.
  destruct v as [ | | | z]; simpl.
  - congruence.
  - exists 0; split; [reflexivity | lia].
  - exists 100; split; [reflexivity | lia].
  - destruct (Z.ltb_spec z 0); [exists 0; split; [reflexivity | lia] |].
    destruct (Z.ltb_spec 100 z); [exists 100; split; [reflexivity | lia] |].
    exists z; split; [reflexivity | lia].
Qed.

Lemma clamp_NaN : clamp NaN = NaN.
Proof. reflexivity. Qed.

End Clamp.

(** ** The playback card *)

Section Playback.
Import JS MusicPlayer.
Context {W : Type}.
Implicit Types (p : props W) (s : state) (e : env W).

Lemma toggle_state p s e :
  fst (handlePlayToggle p s e) = setIsPlaying (negb (isPlaying s)) s.
Proof. reflexivity. Qed.

Lemma toggle_world p s e callback :
  onPlayChange p = Some callback ->
  world (snd (handlePlayToggle p s e)) = callback (negb (isPlaying s)) (world e).
Proof. intros H. unfold handlePlayToggle. rewrite H. reflexivity. Qed.

Lemma toggle_involutive p s e e' :
  fst (handlePlayToggle p (fst (handlePlayToggle p s e)) e') = s.
Proof. destruct s as [[] v]; reflexivity. Qed.

Lemma keydown_confirm p code s e :
  code = "Space" \/ code = "Enter" ->
  handleKeyDown p code s e = (handlePlayToggle p s e, true).
Proof. intros [-> | ->]; reflexivity. Qed.

Lemma keydown_other p code s e :
  code <> "Space" -> code <> "Enter" ->
  handleKeyDown p code s e = (s, e, false).
Proof.
  intros HS HE. unfold handleKeyDown.
  destruct (String.eqb_spec code "Space"); [contradiction |].
  destruct (String.eqb_spec code "Enter"); [contradiction |].
  reflexivity.
Qed.

Lemma run_app p evs1 evs2 c :
  run p (evs1 ++ evs2) c = run p evs2 (run p evs1 c).
Proof. revert c. induction evs1 as [ | ev evs1 IH]; intros c; simpl; auto. Qed.

(** Whatever the events, the state of a mounted player is reachable. *)
Lemma run_reachable p evs s e :
  reachable p s -> reachable p (fst (run p evs (s, e))).
Proof.
  revert s e. induction evs as [ | ev evs IH]; intros s e Hs; cbn [run]; [exact Hs |].
  destruct (dispatch p ev (s, e)) as [s1 e1] eqn:Hd.
  apply IH.
  replace s1 with (fst (dispatch p ev (s, e))) by (rewrite Hd; reflexivity).
  now constructor.
Qed.

(** The status never leaves the two-element set, and is the only thing the
    toggle changes in the hook state. *)
Lemma dispatch_progress_frame p ev s e :
  (forall v, ev <> ProgressbarClick v) ->
  currentProgress (fst (dispatch p ev (s, e))) = currentProgress s.
Proof.
  intros Hev. destruct ev as [ | code | code | v]; simpl.
  - reflexivity.
  - unfold handleKeyDown. destruct (_ || _); reflexivity.
  - unfold handleKeyDown. destruct (_ || _); reflexivity.
  - exfalso. now apply (Hev v).
Qed.

End Playback.

(** C1.  Two toggles starting from Idle bring the player back to the state it
    started from.  The callback runs once per toggle, first with [true]
    (Playing) and then with [false] (Idle): each call receives the status
    that its own toggle produces.  With the recording callback the two
    payloads are appended to the record in that order and nothing else is. *)
Theorem toggle_twice_returns_to_idle :
  forall (W : Type) (p : MusicPlayer.props W) (callback : bool -> W -> W)
         (s : MusicPlayer.state) (e : MusicPlayer.env W),
    MusicPlayer.onPlayChange p = Some callback ->
    MusicPlayer.isPlaying s = false ->
    let once := MusicPlayer.dispatch p MusicPlayer.ButtonClick (s, e) in
    let twice := MusicPlayer.dispatch p MusicPlayer.ButtonClick once in
    MusicPlayer.isPlaying (fst once) = true /\
    MusicPlayer.world (snd once) = callback true (MusicPlayer.world e) /\
    fst twice = s /\
    MusicPlayer.world (snd twice) = callback false (callback true (MusicPlayer.world e)) /\
    twice = MusicPlayer.run p [MusicPlayer.ButtonClick; MusicPlayer.ButtonClick] (s, e) /\
    forall (q : MusicPlayer.props (list bool)) (r : MusicPlayer.env (list bool)),
      MusicPlayer.onPlayChange q = Some MusicPlayer.record_call ->
      MusicPlayer.world
        (snd (MusicPlayer.run q [MusicPlayer.ButtonClick; MusicPlayer.ButtonClick] (s, r)))
      = (MusicPlayer.world r ++ [true; false])%list.
Proof.
  intros W p callback s e Hcb Hidle once twice.
  destruct s as [playing v]; simpl in Hidle; subst playing.
  subst once twice. cbn [MusicPlayer.run].
  unfold MusicPlayer.dispatch, MusicPlayer.handlePlayToggle.
  rewrite Hcb; simpl.
  repeat split.
  intros q r Hq. rewrite Hq; simpl.
  unfold MusicPlayer.record_call. now rewrite <- app_assoc.
Qed.

Lemma toggle_twice_returns_to_idle_witness :
  let p := MusicPlayer.defaults (Some MusicPlayer.record_call) in
  let e := {| MusicPlayer.world := []; MusicPlayer.buttonFocused := false |} in
  let r := MusicPlayer.run p [MusicPlayer.ButtonClick; MusicPlayer.ButtonClick]
             (MusicPlayer.mount p, e) in
  fst r = MusicPlayer.mount p /\ MusicPlayer.world (snd r) = [true; false].
Proof.
  intros p e r.
  destruct (toggle_twice_returns_to_idle (list bool) p MusicPlayer.record_call
              (MusicPlayer.mount p) e eq_refl eq_refl)
    as (_ & _ & Hstate & Hworld & Hrun & _).
  subst r. rewrite <- Hrun. split; [exact Hstate | exact Hworld].
Defined.

(** C2.  On the play/pause button, a key-down whose code is [Space] or
    [Enter] leaves the hook state and the caller's world exactly as a click
    does (so the callback receives the same payload); a key-down with any
    other code changes neither, calls nothing and does not prevent the
    default action.  This holds in every state, reachable or not. *)
Theorem keyboard_pointer_equivalence :
  forall (W : Type) (p : MusicPlayer.props W) (s : MusicPlayer.state)
         (e : MusicPlayer.env W) (code : string),
    (code = "Space" \/ code = "Enter" ->
       MusicPlayer.dispatch p (MusicPlayer.ButtonKeyDown code) (s, e)
       = MusicPlayer.dispatch p MusicPlayer.ButtonClick (s, e)) /\
    (code <> "Space" -> code <> "Enter" ->
       MusicPlayer.dispatch p (MusicPlayer.ButtonKeyDown code) (s, e) = (s, e) /\
       MusicPlayer.handleKeyDown p code s e = (s, e, false)).
Proof.
  intros W p s e code; split.
  - intros H. simpl. now rewrite (keydown_confirm p code s e H).
  - intros HS HE. simpl. now rewrite (keydown_other p code s e HS HE).
Qed.

Lemma keyboard_pointer_equivalence_witness :
  let p := MusicPlayer.defaults (Some MusicPlayer.record_call) in
  let c := (MusicPlayer.mount p,
            {| MusicPlayer.world := []; MusicPlayer.buttonFocused := false |}) in
  MusicPlayer.dispatch p (MusicPlayer.ButtonKeyDown "Enter") c
  = MusicPlayer.dispatch p MusicPlayer.ButtonClick c /\
  MusicPlayer.dispatch p (MusicPlayer.ButtonKeyDown "Tab") c = c.
Proof.
  intros p c. subst c.
  split.
  - apply (proj1 (keyboard_pointer_equivalence (list bool) p (MusicPlayer.mount p)
                    {| MusicPlayer.world := []; MusicPlayer.buttonFocused := false |}
                    "Enter")).
    right; reflexivity.
  - apply (proj2 (keyboard_pointer_equivalence (list bool) p (MusicPlayer.mount p)
                    {| MusicPlayer.world := []; MusicPlayer.buttonFocused := false |}
                    "Tab")); discriminate.
Defined.

(** C3.  A click on the progress bar stores the clamp of the rounded
    position [v]: [0] when [v < 0], [100] when [v > 100], and [v] itself
    otherwise (for NaN both comparisons are false and NaN is stored).  In
    particular -5 gives 0, 150 gives 100 and 42 gives 42. *)
Theorem setProgress_clamps :
  forall (W : Type) (v : JS.number) (s : MusicPlayer.state) (e : MusicPlayer.env W),
    let stored := MusicPlayer.currentProgress (fst (MusicPlayer.handleProgressClick v s e)) in
    stored = (if JS.ltb v (JS.Fin 0) then JS.Fin 0
              else if JS.ltb (JS.Fin 100) v then JS.Fin 100
              else v) /\
    MusicPlayer.currentProgress
      (fst (MusicPlayer.handleProgressClick (JS.Fin (-5)) s e)) = JS.Fin 0 /\
    MusicPlayer.currentProgress
      (fst (MusicPlayer.handleProgressClick (JS.Fin 150) s e)) = JS.Fin 100 /\
    MusicPlayer.currentProgress
      (fst (MusicPlayer.handleProgressClick (JS.Fin 42) s e)) = JS.Fin 42.
Proof.
  intros W v s e stored. subst stored. simpl.
  split; [apply clamp_cases | repeat split].
Qed.

(** C4.  A click on the progress bar changes the stored progress and nothing
    else: the status is the one before the click and the caller's world is
    untouched, so the callback did not run.  After one toggle of a freshly
    mounted player, a click at 30 leaves the range values (30, "0", "100")
    with the status still Playing. *)
Theorem setProgress_frame :
  forall (W : Type) (p : MusicPlayer.props W) (v : JS.number)
         (s : MusicPlayer.state) (e : MusicPlayer.env W),
    MusicPlayer.isPlaying (fst (MusicPlayer.dispatch p (MusicPlayer.ProgressbarClick v) (s, e)))
    = MusicPlayer.isPlaying s /\
    snd (MusicPlayer.dispatch p (MusicPlayer.ProgressbarClick v) (s, e)) = e /\
    let after :=
      MusicPlayer.run p [MusicPlayer.ButtonClick; MusicPlayer.ProgressbarClick (JS.Fin 30)]
        (MusicPlayer.mount p, e) in
    MusicPlayer.range_values (MusicPlayer.render p (fst after)) = (JS.Fin 30, "0", "100") /\
    MusicPlayer.isPlaying (fst after) = true /\
    snd after = snd (MusicPlayer.dispatch p MusicPlayer.ButtonClick (MusicPlayer.mount p, e)).
Proof.
  intros W p v s e. repeat split.
Qed.

(** C7.  The pressed indicator and the live-region text are both computed by
    the one render from the one status: the indicator equals the status, the
    text announces that same status, two states with the same status give the
    same indicator, label and text, and the render that follows a toggle
    shows the flipped status in both places. *)
Theorem aria_pressed_and_live_region_agree :
  forall (W : Type) (p : MusicPlayer.props W) (s : MusicPlayer.state)
         (e : MusicPlayer.env W),
    let v := MusicPlayer.render p s in
    let v' := MusicPlayer.render p (fst (MusicPlayer.handlePlayToggle p s e)) in
    MusicPlayer.button_aria_pressed v = MusicPlayer.isPlaying s /\
    MusicPlayer.announced (MusicPlayer.live_region v) = Some (MusicPlayer.button_aria_pressed v) /\
    MusicPlayer.button_aria_pressed v' = negb (MusicPlayer.isPlaying s) /\
    MusicPlayer.announced (MusicPlayer.live_region v') = Some (MusicPlayer.button_aria_pressed v') /\
    forall (q : MusicPlayer.props W) (t : MusicPlayer.state),
      MusicPlayer.isPlaying t = MusicPlayer.isPlaying s ->
      MusicPlayer.button_aria_pressed (MusicPlayer.render q t) = MusicPlayer.button_aria_pressed v /\
      MusicPlayer.button_aria_label (MusicPlayer.render q t) = MusicPlayer.button_aria_label v /\
      MusicPlayer.live_region (MusicPlayer.render q t) = MusicPlayer.live_region v.
Proof.
  intros W p s e v v'. subst v v'.
  destruct s as [[] progress]; simpl;
    do 4 (split; [reflexivity |]);
    intros q [playing progress'] Ht; simpl in Ht; subst playing; simpl;
    repeat split.
Qed.

Lemma aria_pressed_and_live_region_agree_witness :
  let p := MusicPlayer.defaults (None : option (bool -> unit -> unit)) in
  let t := {| MusicPlayer.isPlaying := false; MusicPlayer.currentProgress := JS.Fin 30 |} in
  MusicPlayer.button_aria_pressed (MusicPlayer.render p t) = false /\
  MusicPlayer.live_region (MusicPlayer.render p t)
  = MusicPlayer.live_region (MusicPlayer.render p (MusicPlayer.mount p)).
Proof.
  intros p t.
  destruct (aria_pressed_and_live_region_agree unit p (MusicPlayer.mount p)
              {| MusicPlayer.world := tt; MusicPlayer.buttonFocused := false |})
    as (_ & _ & _ & _ & Hsame).
  destruct (Hsame p t eq_refl) as (Hpressed & _ & Hlive).
  split; [exact Hpressed | exact Hlive].
Defined.

(** C10.  The first render stores the [progress] prop as it is: the hook
    state holds it and the progress bar reports it as [aria-valuenow], also
    below 0 and above 100.  Only a later click on the bar clamps: mounted
    with 150 the player shows 150, and a click at 150 shows 100. *)
Theorem initial_progress_unclamped :
  forall (W : Type) (p : MusicPlayer.props W) (e : MusicPlayer.env W),
    MusicPlayer.currentProgress (MusicPlayer.mount p) = MusicPlayer.progress p /\
    MusicPlayer.progressbar_aria_valuenow (MusicPlayer.render p (MusicPlayer.mount p))
    = MusicPlayer.progress p /\
    forall (title artist : string) (callback : option (bool -> W -> W)) (z : Z),
      let q := {| MusicPlayer.title := title; MusicPlayer.artist := artist;
                  MusicPlayer.progress := JS.Fin z;
                  MusicPlayer.onPlayChange := callback |} in
      MusicPlayer.range_values (MusicPlayer.render q (MusicPlayer.mount q))
      = (JS.Fin z, "0", "100") /\
      MusicPlayer.currentProgress
        (fst (MusicPlayer.dispatch q (MusicPlayer.ProgressbarClick (JS.Fin z))
                (MusicPlayer.mount q, e)))
      = JS.Fin (Z.max 0 (Z.min 100 z)).
Proof.
  intros W p e.
  split; [reflexivity |]. split; [reflexivity |].
  intros title artist callback z q.
  split; [reflexivity |].
  subst q; simpl. rewrite clamp_cases. simpl.
  destruct (Z.ltb_spec z 0); [f_equal; lia |].
  destruct (Z.ltb_spec 100 z); f_equal; lia.
Qed.

(** ** Table lookups *)

Section Lookup.
Import JS.
Context {A : Type}.
Implicit Types (table : gmap string A) (key : string).

Lemma get_Undefined table key :
  get table key = Undefined <-> table !! key = None /\ key ∉ Object_prototype.
Proof.
  unfold get. destruct (table !! key) as [a | ].
  - split; [discriminate | intros [? _]; discriminate].
  - case_bool_decide as Hin.
    + split; [discriminate | intros [_ Hout]; contradiction].
    + split; [intros _; split; [reflexivity | exact Hin] | reflexivity].
Qed.

Lemma get_Own table key a : get table key = Own a <-> table !! key = Some a.
Proof.
  unfold get. destruct (table !! key) as [b | ].
  - split; intros H; inversion H; reflexivity.
  - case_bool_decide; split; discriminate.
Qed.

(** A name that is neither listed in the literal nor inherited is undefined. *)
Lemma get_unlisted (l : list (string * A)) key :
  key ∉ l.*1 -> key ∉ Object_prototype -> get (list_to_map l) key = Undefined.
Proof.
  intros Hl Hp. apply get_Undefined. split; [| exact Hp].
  now apply not_elem_of_list_to_map_1.
Qed.

Lemma get_listed (l : list (string * A)) key a :
  get (list_to_map l) key = Own a -> a ∈ l.*2.
Proof.
  intros H. apply get_Own in H. apply elem_of_list_to_map_2 in H.
  now apply (list_elem_of_fmap_2 snd) in H.
Qed.

End Lookup.

(** ** The base shell *)

Section BaseShell.
Import JS GlassCard.

Lemma unrecognized_opacity (o : string) :
  o ∉ propTypes_opacity -> o ∉ Object_prototype -> get opacityMap o = Undefined.
Proof. intros Ho Hp. now apply get_unlisted. Qed.

Lemma unrecognized_variant (v : string) :
  v ∉ propTypes_variant -> v ∉ Object_prototype -> get variantClasses v = Undefined.
Proof. intros Hv Hp. now apply get_unlisted. Qed.

Lemma currentOpacity_fallback (o : string) :
  get opacityMap o = Undefined -> currentOpacity o = currentOpacity "standard".
Proof. intros H. unfold currentOpacity. rewrite H. reflexivity. Qed.

Lemma variantSpread_fallback (v : string) :
  get variantClasses v = Undefined -> variantSpread v = variantSpread "default".
Proof. intros H. unfold variantSpread. rewrite H. reflexivity. Qed.

(** An opacity named like a member of [Object.prototype] is looked up
    successfully and yields a value without a [hover] field. *)
Lemma inherited_opacity_raises :
  throws (resolve "constructor" "default" true "") = true.
Proof. reflexivity. Qed.

Lemma inherited_variant_raises :
  throws (resolve "standard" "toString" true "") = true.
Proof. reflexivity. Qed.

Lemma render_ignores_children (p : props) (kids : option node) :
  render {| children := kids; className := className p; variant := variant p;
            opacity := opacity p; interactive := interactive p; role := role p;
            ariaLabel := ariaLabel p; ariaDescribedBy := ariaDescribedBy p;
            rest := rest p |}
  = bind (render p) (fun a =>
      Normal {| article_className := article_className a;
                article_role := article_role a;
                article_aria_label := article_aria_label a;
                article_aria_describedby := article_aria_describedby a;
                article_rest := article_rest a;
                article_children := kids |}).
Proof.
  unfold render; simpl.
  destruct (allClasses (opacity p) (variant p) (interactive p) (className p));
    reflexivity.
Qed.

End BaseShell.

(** ** The frosted shell *)

Section FrostedShell.
Import JS FrostedGlassPanel.

Lemma config_listed (variant opacity : string) (e : config_entry) :
  config variant opacity = Entry e -> e ∈ entries.
Proof.
  unfold config, or_default, or.
  destruct (get opacityConfig (configKey variant opacity)) as [ | n | a] eqn:Hkey.
  - destruct (get opacityConfig opacity) as [ | n | a] eqn:Hop; intros H;
      inversion H; subst.
    + unfold entries. set_solver.
    + now apply get_listed in Hop.
  - discriminate.
  - intros H; inversion H; subst. now apply get_listed in Hkey.
Qed.

(** The long s capitalizes to S, so this opacity reaches the content entry. *)
Lemma long_s_opacity :
  config "content" "ſtandard" = Entry contentStandard.
Proof. reflexivity. Qed.

Lemma resolve_variant (o v s : string) (i : bool) :
  resolve o v s i = resolve o (if String.eqb v "nav" then "nav" else "content") s i.
Proof.
  unfold resolve, config, configKey. destruct (String.eqb v "nav"); reflexivity.
Qed.

Lemma shadow_shape_listed :
  Forall (fun e =>
            let layers := CSS.shadow_layers (shadow e) in
            CSS.outer_count layers = 1%nat /\ CSS.inset_count layers = 4%nat /\
            CSS.inset <$> layers = [false; true; true; true; true])
         entries.
Proof. repeat constructor. Qed.

End FrostedShell.

(** C5, as the code has it.  In the base shell an opacity that names no
    property of the table resolves as "standard" does, a variant that names
    none resolves as "default" does, and such a resolution does not raise; so
    "bogus-tier" resolves as "standard".  In the frosted shell a size that names
    no property resolves as "medium" does and every variant other than "nav"
    resolves as "content" does; an opacity for which neither the
    variant-specific key nor the opacity itself names a property resolves to
    the [standard] entry kept for the older API, which is what "standard"
    resolves to under the "nav" variant. *)
Theorem resolve_fallback :
  (forall (o v : string) (i : bool) (c : string),
     JS.get GlassCard.opacityMap o = JS.Undefined ->
     GlassCard.resolve o v i c = GlassCard.resolve "standard" v i c) /\
  (forall (o v : string) (i : bool) (c : string),
     JS.get GlassCard.variantClasses v = JS.Undefined ->
     GlassCard.resolve o v i c = GlassCard.resolve o "default" i c) /\
  (forall (o v : string) (i : bool) (c : string),
     JS.get GlassCard.opacityMap o = JS.Undefined ->
     JS.get GlassCard.variantClasses v = JS.Undefined ->
     JS.throws (GlassCard.resolve o v i c) = false) /\
  GlassCard.resolve "bogus-tier" "default" true ""
  = GlassCard.resolve "standard" "default" true "" /\
  (forall (o v s : string) (i : bool),
     JS.get FrostedGlassPanel.sizeConfig s = JS.Undefined ->
     FrostedGlassPanel.resolve o v s i = FrostedGlassPanel.resolve o v "medium" i) /\
  (forall (o v s : string) (i : bool),
     v <> "nav" ->
     FrostedGlassPanel.resolve o v s i = FrostedGlassPanel.resolve o "content" s i) /\
  (forall (o v s : string) (i : bool),
     JS.get FrostedGlassPanel.opacityConfig (FrostedGlassPanel.configKey v o) = JS.Undefined ->
     JS.get FrostedGlassPanel.opacityConfig o = JS.Undefined ->
     FrostedGlassPanel.config v o = JS.Entry FrostedGlassPanel.standard /\
     FrostedGlassPanel.resolve o v s i = FrostedGlassPanel.resolve "standard" "nav" s i).
Proof.
  split; [| split; [| split; [| split; [| split; [| split]]]]].
  - intros o v i c Ho. unfold GlassCard.resolve.
    now rewrite (currentOpacity_fallback o Ho).
  - intros o v i c Hv. unfold GlassCard.resolve.
    now rewrite (variantSpread_fallback v Hv).
  - intros o v i c Ho Hv. unfold GlassCard.resolve.
    rewrite (currentOpacity_fallback o Ho), (variantSpread_fallback v Hv).
    destruct i; reflexivity.
  - reflexivity.
  - intros o v s i Hs. unfold FrostedGlassPanel.resolve, FrostedGlassPanel.sizeStyle.
    rewrite Hs. reflexivity.
  - intros o v s i Hv. rewrite resolve_variant.
    destruct (String.eqb_spec v "nav"); [contradiction | reflexivity].
  - intros o v s i Hkey Ho.
    assert (Hcfg : FrostedGlassPanel.config v o = JS.Entry FrostedGlassPanel.standard).
    { unfold FrostedGlassPanel.config. rewrite Hkey, Ho. reflexivity. }
    split; [exact Hcfg |].
    unfold FrostedGlassPanel.resolve. rewrite Hcfg. reflexivity.
Qed.

Lemma resolve_fallback_witness :
  GlassCard.resolve "glassy" "wide" false "w-80"
  = GlassCard.resolve "standard" "default" false "w-80" /\
  FrostedGlassPanel.resolve "glassy" "content" "huge" true
  = FrostedGlassPanel.resolve "standard" "nav" "medium" true.
Proof.
  destruct resolve_fallback as (Hop & Hvar & _ & _ & Hsize & _ & Hcfg).
  split.
  - rewrite (Hop "glassy" "wide" false "w-80" eq_refl).
    apply (Hvar "standard" "wide" false "w-80" eq_refl).
  - rewrite (Hsize "glassy" "content" "huge" true eq_refl).
    apply (Hcfg "glassy" "content" "medium" true eq_refl eq_refl).
Defined.

(** C5 as stated fails in the frosted shell: under the default variant the
    unknown opacity resolves to the [standard] entry of the older API (alpha
    0.25), while "standard" resolves to [contentStandard] (alpha 0.12).  The
    same holds when the variant is spelled "content". *)
Lemma resolve_fallback_counterexample :
  FrostedGlassPanel.resolve "bogus-tier" "default" "medium" true
  <> FrostedGlassPanel.resolve "standard" "default" "medium" true /\
  FrostedGlassPanel.resolve "bogus-tier" "content" "medium" true
  <> FrostedGlassPanel.resolve "standard" "content" "medium" true /\
  FrostedGlassPanel.backgroundAlpha
    (FrostedGlassPanel.resolve "bogus-tier" "default" "medium" true) = Some (25 # 100)%Q /\
  FrostedGlassPanel.backgroundAlpha
    (FrostedGlassPanel.resolve "standard" "default" "medium" true) = Some (12 # 100)%Q.
Proof.
  split; [| split; [| split; reflexivity]];
    intros H; apply (f_equal FrostedGlassPanel.style_background) in H;
    vm_compute in H; discriminate H.
Qed.

(** C6.  With the variant, the size and the other props fixed, the
    background alpha and the blur radius do not decrease along light,
    standard, dark, opaque.  In the frosted shell this holds for every
    variant and size; in the base shell (whose blur is 16px at every tier) for
    every variant whose class list can be spread. *)
Theorem tier_monotonicity :
  (forall (variant size : string) (interactive : bool),
     exists (alphas : list Q) (blurs : list Z),
       map (fun tier => FrostedGlassPanel.backgroundAlpha
                          (FrostedGlassPanel.resolve tier variant size interactive))
           FrostedGlassPanel.propTypes_opacity = map Some alphas /\
       StronglySorted Qle alphas /\
       map (fun tier => FrostedGlassPanel.blurRadiusPx
                          (FrostedGlassPanel.resolve tier variant size interactive))
           FrostedGlassPanel.propTypes_opacity = map Some blurs /\
       StronglySorted Z.le blurs) /\
  (forall (variant : string) (interactive : bool) (className : string),
     JS.throws (GlassCard.variantSpread variant) = false ->
     exists (alphas : list Q) (blurs : list Z),
       map (fun tier => GlassCard.channel GlassCard.backgroundAlpha
                          (GlassCard.resolve tier variant interactive className))
           GlassCard.propTypes_opacity = map Some alphas /\
       StronglySorted Qle alphas /\
       map (fun tier => GlassCard.channel GlassCard.blurRadiusPx
                          (GlassCard.resolve tier variant interactive className))
           GlassCard.propTypes_opacity = map Some blurs /\
       StronglySorted Z.le blurs).
Proof.
  split.
  - intros variant size interactive.
    assert (Hv : forall tier,
               FrostedGlassPanel.resolve tier variant size interactive
               = FrostedGlassPanel.resolve tier
                   (if String.eqb variant "nav" then "nav" else "content")
                   size interactive)
      by (intros; apply resolve_variant).
    unfold FrostedGlassPanel.propTypes_opacity; cbn [map]. rewrite !Hv.
    destruct (String.eqb variant "nav").
    + exists [15 # 100; 25 # 100; 35 # 100; 45 # 100]%Q, [10; 12; 14; 16].
      split; [reflexivity |].
      split; [repeat constructor; unfold Qle; simpl; lia |].
      split; [reflexivity |].
      repeat constructor; lia.
    + exists [8 # 100; 12 # 100; 18 # 100; 45 # 100]%Q, [4; 6; 8; 16].
      split; [reflexivity |].
      split; [repeat constructor; unfold Qle; simpl; lia |].
      split; [reflexivity |].
      repeat constructor; lia.
  - intros variant interactive className Hspread.
    exists [45 # 100; 65 # 100; 85 # 100; 95 # 100]%Q, [16; 16; 16; 16].
    unfold GlassCard.propTypes_opacity, GlassCard.resolve; cbn [map].
    destruct (GlassCard.variantSpread variant) as [classes | err];
      [| discriminate Hspread].
    destruct interactive.
    + split; [reflexivity |].
      split; [repeat constructor; unfold Qle; simpl; lia |].
      split; [reflexivity |].
      repeat constructor; lia.
    + split; [reflexivity |].
      split; [repeat constructor; unfold Qle; simpl; lia |].
      split; [reflexivity |].
      repeat constructor; lia.
Qed.

Lemma tier_monotonicity_witness :
  exists (alphas : list Q) (blurs : list Z),
    map (fun tier => GlassCard.channel GlassCard.backgroundAlpha
                       (GlassCard.resolve tier "large" true "w-80"))
        GlassCard.propTypes_opacity = map Some alphas /\
    StronglySorted Qle alphas /\
    map (fun tier => GlassCard.channel GlassCard.blurRadiusPx
                       (GlassCard.resolve tier "large" true "w-80"))
        GlassCard.propTypes_opacity = map Some blurs /\
    StronglySorted Z.le blurs.
Proof.
  apply (proj2 tier_monotonicity "large" true "w-80"). reflexivity.
Defined.

(** C8, as the code has it.  In the frosted shell every resolution that
    reaches a table entry carries a shadow of five layers, one outer layer
    followed by four inset layers; in particular the count is the same at
    each of the four tiers, under every variant and size. *)
Theorem frosted_shadow_layers :
  (forall (opacity variant size : string) (interactive : bool)
          (e : FrostedGlassPanel.config_entry),
     FrostedGlassPanel.config variant opacity = JS.Entry e ->
     let layers :=
       FrostedGlassPanel.shadowLayers
         (FrostedGlassPanel.resolve opacity variant size interactive) in
     CSS.outer_count layers = 1%nat /\ CSS.inset_count layers = 4%nat /\
     CSS.inset <$> layers = [false; true; true; true; true]) /\
  (forall (variant size : string) (interactive : bool),
     Forall (fun tier =>
               let layers :=
                 FrostedGlassPanel.shadowLayers
                   (FrostedGlassPanel.resolve tier variant size interactive) in
               CSS.outer_count layers = 1%nat /\ CSS.inset_count layers = 4%nat)
            FrostedGlassPanel.propTypes_opacity).
Proof.
  assert (Hall : forall opacity variant size interactive e,
             FrostedGlassPanel.config variant opacity = JS.Entry e ->
             let layers :=
               FrostedGlassPanel.shadowLayers
                 (FrostedGlassPanel.resolve opacity variant size interactive) in
             CSS.outer_count layers = 1%nat /\ CSS.inset_count layers = 4%nat /\
             CSS.inset <$> layers = [false; true; true; true; true]).
  { intros opacity variant size interactive e Hcfg.
    pose proof (config_listed variant opacity e Hcfg) as Hin.
    unfold FrostedGlassPanel.shadowLayers, FrostedGlassPanel.resolve; cbn [FrostedGlassPanel.style_boxShadow].
    rewrite Hcfg; cbn [JS.field].
    exact (proj1 (Forall_forall _ _) shadow_shape_listed e Hin). }
  split; [exact Hall |].
  intros variant size interactive.
  apply Forall_forall. intros tier Htier.
  assert (Hentry : exists e, FrostedGlassPanel.config variant tier = JS.Entry e).
  { unfold FrostedGlassPanel.config, FrostedGlassPanel.configKey.
    unfold FrostedGlassPanel.propTypes_opacity in Htier.
    destruct (String.eqb variant "nav");
      repeat (apply elem_of_cons in Htier as [-> | Htier]; [eexists; reflexivity |]);
      now apply elem_of_nil in Htier. }
  destruct Hentry as [e He].
  destruct (Hall tier variant size interactive e He) as (Ho & Hi & _).
  split; assumption.
Qed.

Lemma frosted_shadow_layers_witness :
  CSS.inset <$> FrostedGlassPanel.shadowLayers
                  (FrostedGlassPanel.resolve "light" "content" "small" true)
  = [false; true; true; true; true].
Proof.
  apply (proj1 frosted_shadow_layers "light" "content" "small" true
           FrostedGlassPanel.contentLight eq_refl).
Defined.

(** C8 as stated fails at both ends: the lightest tier already carries five
    layers, not one, and the most opaque tier carries four inset layers, not
    at most two; the count does not change from one to the other. *)
Lemma frosted_shadow_layers_counterexample :
  let lowest :=
    FrostedGlassPanel.shadowLayers
      (FrostedGlassPanel.resolve "light" "content" "medium" true) in
  let highest :=
    FrostedGlassPanel.shadowLayers
      (FrostedGlassPanel.resolve "opaque" "content" "medium" true) in
  length lowest <> 1%nat /\
  ~ (CSS.inset_count highest <= 2)%nat /\
  length lowest = length highest.
Proof.
  vm_compute. repeat split; [discriminate | lia].
Qed.

(** C9, as the code has it.  The shell never looks at [children]: whatever
    the other props, rendering without children raises exactly when
    rendering with them does, and otherwise returns the same article with
    the content left empty.  With the default props it returns the article. *)
Theorem missing_children_renders :
  (forall (p : GlassCard.props),
     GlassCard.render
       {| GlassCard.children := None;
          GlassCard.className := GlassCard.className p;
          GlassCard.variant := GlassCard.variant p;
          GlassCard.opacity := GlassCard.opacity p;
          GlassCard.interactive := GlassCard.interactive p;
          GlassCard.role := GlassCard.role p;
          GlassCard.ariaLabel := GlassCard.ariaLabel p;
          GlassCard.ariaDescribedBy := GlassCard.ariaDescribedBy p;
          GlassCard.rest := GlassCard.rest p |}
     = JS.bind (GlassCard.render p) (fun a =>
         JS.Normal {| GlassCard.article_className := GlassCard.article_className a;
                      GlassCard.article_role := GlassCard.article_role a;
                      GlassCard.article_aria_label := GlassCard.article_aria_label a;
                      GlassCard.article_aria_describedby := GlassCard.article_aria_describedby a;
                      GlassCard.article_rest := GlassCard.article_rest a;
                      GlassCard.article_children := None |})) /\
  (exists a, GlassCard.render (GlassCard.defaults None) = JS.Normal a /\
             GlassCard.article_children a = None) /\
  FrostedGlassPanel.panel_children
    (FrostedGlassPanel.render (FrostedGlassPanel.defaults None)) = None.
Proof.
  split; [| split].
  - intros p. apply render_ignores_children.
  - eexists. split; reflexivity.
  - reflexivity.
Qed.

(** C9 as stated fails: the shell built with its default props and no
    children does not raise, it returns an article. *)
Lemma missing_children_counterexample :
  JS.throws (GlassCard.render (GlassCard.defaults None)) = false.
Proof. reflexivity. Qed.

(** * Further properties *)

(** ** Event sequences of the playback card *)

Section PlaybackRuns.
Import JS MusicPlayer MusicPlayerEvents.
Context {W : Type}.
Implicit Types (p : props W) (s : state) (e : env W) (ev : event) (evs : list event).

Lemma dispatch_status p ev s e :
  isPlaying (fst (dispatch p ev (s, e))) = xorb (isPlaying s) (toggles ev).
Proof.
  destruct ev as [ | code | code | v]; simpl.
  - now destruct (isPlaying s).
  - unfold handleKeyDown. destruct (_ || _); simpl; now destruct (isPlaying s).
  - unfold handleKeyDown. destruct (_ || _); simpl; now destruct (isPlaying s).
  - now destruct (isPlaying s).
Qed.

Lemma dispatch_progress p ev s e :
  currentProgress (fst (dispatch p ev (s, e)))
  = match ev with
    | ProgressbarClick v => clamp v
    | _ => currentProgress s
    end.
Proof.
  destruct ev as [ | code | code | v]; simpl; try reflexivity;
    unfold handleKeyDown; destruct (_ || _); reflexivity.
Qed.

Lemma run_snoc p evs ev c :
  run p (evs ++ [ev]) c = dispatch p ev (run p evs c).
Proof. now rewrite run_app. Qed.

Lemma clamp_Fin (z : Z) : clamp (Fin z) = Fin (Z.max 0 (Z.min 100 z)).
Proof.
  rewrite clamp_cases; simpl.
  destruct (Z.ltb_spec z 0); [f_equal; lia |].
  destruct (Z.ltb_spec 100 z); f_equal; lia.
Qed.

Lemma clamp_range (v : number) : v <> NaN -> in_range (clamp v) = true.
Proof.
  intros Hv. destruct (clamp_in_range v Hv) as (r & -> & Hr).
  simpl. apply andb_true_intro; split; apply Z.leb_le; lia.
Qed.

Lemma last_click_snoc evs ev :
  last_click (evs ++ [ev])
  = match ev with
    | ProgressbarClick v => Some v
    | _ => last_click evs
    end.
Proof.
  induction evs as [ | ev' evs IH]; simpl.
  - now destruct ev.
  - rewrite IH. destruct ev; reflexivity.
Qed.

End PlaybackRuns.

(** X1.  After any sequence of events the status is Playing exactly when the
    number of toggling events (clicks on the button, Space or Enter on the
    button or on the progress bar) is odd, starting from Idle; in general
    the status has flipped once per toggling event. *)
Theorem status_is_parity_of_toggles :
  forall (W : Type) (p : MusicPlayer.props W) (evs : list MusicPlayer.event)
         (s : MusicPlayer.state) (e : MusicPlayer.env W),
    MusicPlayer.isPlaying (fst (MusicPlayer.run p evs (s, e)))
    = xorb (MusicPlayer.isPlaying s)
           (Nat.odd (length (List.filter MusicPlayerEvents.toggles evs))).
Proof.
  intros W p evs. induction evs as [ | ev evs IH]; intros s e.
  - simpl. now destruct (MusicPlayer.isPlaying s).
  - cbn [MusicPlayer.run].
    destruct (MusicPlayer.dispatch p ev (s, e)) as [s1 e1] eqn:Hd.
    rewrite IH.
    replace (MusicPlayer.isPlaying s1)
      with (xorb (MusicPlayer.isPlaying s) (MusicPlayerEvents.toggles ev))
      by (rewrite <- (dispatch_status p ev s e), Hd; reflexivity).
    cbn [List.filter].
    destruct (MusicPlayerEvents.toggles ev); cbn [length].
    + rewrite Nat.odd_succ, <- Nat.negb_odd.
      destruct (MusicPlayer.isPlaying s), (Nat.odd _); reflexivity.
    + now rewrite xorb_false_r.
Qed.

(** X2.  With a callback that records its payloads, the record and the
    status never drift apart: if the most recent payload is the current
    status before a sequence of events, it is so after it, and the record has
    grown by one payload per toggling event. *)
Theorem callback_record_tracks_status :
  forall (p : MusicPlayer.props (list bool)) (evs : list MusicPlayer.event)
         (s : MusicPlayer.state) (e : MusicPlayer.env (list bool)),
    MusicPlayer.onPlayChange p = Some MusicPlayer.record_call ->
    List.last (MusicPlayer.world e) false = MusicPlayer.isPlaying s ->
    let after := MusicPlayer.run p evs (s, e) in
    List.last (MusicPlayer.world (snd after)) false = MusicPlayer.isPlaying (fst after) /\
    length (MusicPlayer.world (snd after))
    = (length (MusicPlayer.world e) + length (List.filter MusicPlayerEvents.toggles evs))%nat.
Proof.
  intros p evs. induction evs as [ | ev evs IH]; intros s e Hcb Hinv after.
  - subst after; simpl. split; [exact Hinv | lia].
  - subst after. cbn [MusicPlayer.run].
    destruct (MusicPlayer.dispatch p ev (s, e)) as [s1 e1] eqn:Hd.
    assert (Hstep :
      List.last (MusicPlayer.world e1) false = MusicPlayer.isPlaying s1 /\
      length (MusicPlayer.world e1)
      = (length (MusicPlayer.world e)
         + (if MusicPlayerEvents.toggles ev then 1 else 0))%nat).
    { assert (Htoggle :
        MusicPlayer.handlePlayToggle p s e
        = (MusicPlayer.setIsPlaying (negb (MusicPlayer.isPlaying s)) s,
           {| MusicPlayer.world := (MusicPlayer.world e ++ [negb (MusicPlayer.isPlaying s)])%list;
              MusicPlayer.buttonFocused := true |})).
      { unfold MusicPlayer.handlePlayToggle. rewrite Hcb. reflexivity. }
      destruct ev as [ | code | code | v]; simpl in Hd;
        try (unfold MusicPlayer.handleKeyDown in Hd;
             simpl; destruct (String.eqb code "Space" || String.eqb code "Enter");
             simpl in Hd);
        try rewrite Htoggle in Hd; inversion Hd; subst; simpl;
        try (rewrite List.last_last, length_app; simpl; split; [reflexivity | lia]);
        (split; [exact Hinv | lia]). }
    destruct Hstep as [Hinv1 Hlen1].
    destruct (IH s1 e1 Hcb Hinv1) as [Hlast Hlen].
    split; [exact Hlast |].
    rewrite Hlen, Hlen1. cbn [List.filter].
    destruct (MusicPlayerEvents.toggles ev); simpl; lia.
Qed.

Lemma callback_record_tracks_status_witness :
  let p := MusicPlayer.defaults (Some MusicPlayer.record_call) in
  let after :=
    MusicPlayer.run p
      [MusicPlayer.ButtonClick; MusicPlayer.ProgressbarClick (JS.Fin 30);
       MusicPlayer.ButtonKeyDown "Enter"; MusicPlayer.ProgressbarKeyDown "Space"]
      (MusicPlayer.mount p,
       {| MusicPlayer.world := []; MusicPlayer.buttonFocused := false |}) in
  List.last (MusicPlayer.world (snd after)) false = MusicPlayer.isPlaying (fst after) /\
  length (MusicPlayer.world (snd after)) = 3%nat.
Proof.
  intros p after.
  apply (callback_record_tracks_status p
           [MusicPlayer.ButtonClick; MusicPlayer.ProgressbarClick (JS.Fin 30);
            MusicPlayer.ButtonKeyDown "Enter"; MusicPlayer.ProgressbarKeyDown "Space"]
           (MusicPlayer.mount p)
           {| MusicPlayer.world := []; MusicPlayer.buttonFocused := false |}
           eq_refl eq_refl).
Defined.

(** X3.  After any sequence of events the stored progress is the clamp of
    the last click on the progress bar, or the progress before the sequence
    when the bar was not clicked: the last click wins and no key-down or
    button click moves the progress. *)
Theorem progress_is_last_click :
  forall (W : Type) (p : MusicPlayer.props W) (evs : list MusicPlayer.event)
         (s : MusicPlayer.state) (e : MusicPlayer.env W),
    MusicPlayer.currentProgress (fst (MusicPlayer.run p evs (s, e)))
    = match MusicPlayerEvents.last_click evs with
      | Some v => MusicPlayer.clamp v
      | None => MusicPlayer.currentProgress s
      end.
Proof.
  intros W p evs s e. induction evs as [ | ev evs IH] using rev_ind.
  - reflexivity.
  - rewrite run_snoc, last_click_snoc.
    destruct (MusicPlayer.run p evs (s, e)) as [s1 e1]. simpl fst in IH.
    rewrite dispatch_progress.
    destruct ev; try exact IH. reflexivity.
Qed.

(** X4.  The interval is an invariant of the bar: when no click carries NaN,
    a progress that lies in [0,100] stays there through any sequence of
    events, and a progress given outside of it at construction is inside
    after any sequence that contains a click. *)
Theorem progress_stays_in_range :
  forall (W : Type) (p : MusicPlayer.props W) (evs : list MusicPlayer.event)
         (s : MusicPlayer.state) (e : MusicPlayer.env W),
    forallb (fun ev => negb (MusicPlayerEvents.click_is_NaN ev)) evs = true ->
    MusicPlayerEvents.in_range (MusicPlayer.currentProgress s) = true
    \/ MusicPlayerEvents.last_click evs <> None ->
    MusicPlayerEvents.in_range
      (MusicPlayer.currentProgress (fst (MusicPlayer.run p evs (s, e)))) = true.
Proof.
  intros W p evs s e Hclean Hstart.
  rewrite progress_is_last_click.
  destruct (MusicPlayerEvents.last_click evs) as [v | ] eqn:Hlast.
  - apply clamp_range. intros ->.
    clear Hstart. induction evs as [ | ev evs IH]; [discriminate Hlast |].
    simpl in Hclean, Hlast. apply andb_prop in Hclean as [Hev Hrest].
    destruct (MusicPlayerEvents.last_click evs) as [w | ].
    + apply IH; [exact Hrest | exact Hlast].
    + destruct ev as [ | | | w]; try discriminate Hlast.
      inversion Hlast; subst w. discriminate Hev.
  - destruct Hstart as [Hin | Hclick]; [exact Hin | contradiction].
Qed.

Lemma progress_stays_in_range_witness :
  let p := {| MusicPlayer.title := "t"; MusicPlayer.artist := "a";
              MusicPlayer.progress := JS.Fin 150;
              MusicPlayer.onPlayChange := (None : option (bool -> unit -> unit)) |} in
  MusicPlayerEvents.in_range
    (MusicPlayer.currentProgress
       (fst (MusicPlayer.run p
               [MusicPlayer.ProgressbarClick JS.PosInf; MusicPlayer.ButtonClick]
               (MusicPlayer.mount p,
                {| MusicPlayer.world := tt; MusicPlayer.buttonFocused := false |}))))
  = true.
Proof.
  intros p.
  apply (progress_stays_in_range unit p
           [MusicPlayer.ProgressbarClick JS.PosInf; MusicPlayer.ButtonClick]).
  - reflexivity.
  - right. discriminate.
Defined.

(** X5.  The clamp is a monotone projection: clamping twice is clamping
    once, and of two positions the lower one never ends above the other. *)
Theorem clamp_idempotent_monotone :
  forall (v : JS.number),
    MusicPlayer.clamp (MusicPlayer.clamp v) = MusicPlayer.clamp v /\
    forall (a b : Z), a <= b ->
      exists ra rb, MusicPlayer.clamp (JS.Fin a) = JS.Fin ra /\
                    MusicPlayer.clamp (JS.Fin b) = JS.Fin rb /\ ra <= rb.
Proof.
  intros v. split.
  - destruct v as [ | | | z]; try reflexivity.
    rewrite !clamp_Fin. f_equal. lia.
  - intros a b Hab. exists (Z.max 0 (Z.min 100 a)), (Z.max 0 (Z.min 100 b)).
    rewrite !clamp_Fin. repeat split; lia.
Qed.

Lemma clamp_idempotent_monotone_witness :
  exists ra rb, MusicPlayer.clamp (JS.Fin (-5)) = JS.Fin ra /\
                MusicPlayer.clamp (JS.Fin 150) = JS.Fin rb /\ ra <= rb.
Proof.
  apply (proj2 (clamp_idempotent_monotone JS.NaN) (-5) 150). lia.
Defined.

(** ** The class list of the base shell *)

Section BaseShellClasses.
Import JS GlassCard GlassCardChannels.

Lemma get_Inherited {A} (table : gmap string A) (key name : string) :
  get table key = Inherited name <->
  table !! key = None /\ key ∈ Object_prototype /\ name = key.
Proof.
  unfold get. destruct (table !! key) as [a | ].
  - split; [discriminate | intros [? _]; discriminate].
  - case_bool_decide as Hin.
    + split; [| intros (_ & _ & ->); reflexivity].
      intros H; inversion H; subst. split; [reflexivity |]. split; [exact Hin | reflexivity].
    + split; [discriminate | intros (_ & Hp & _); contradiction].
Qed.

Lemma opacity_names_not_inherited (key : string) :
  key ∈ Object_prototype -> opacityMap !! key = None.
Proof.
  unfold Object_prototype. intros H.
  repeat (apply elem_of_cons in H as [-> | H]; [reflexivity |]).
  now apply elem_of_nil in H.
Qed.

Lemma variant_names_not_inherited (key : string) :
  key ∈ Object_prototype -> variantClasses !! key = None.
Proof.
  unfold Object_prototype. intros H.
  repeat (apply elem_of_cons in H as [-> | H]; [reflexivity |]).
  now apply elem_of_nil in H.
Qed.

Lemma currentOpacity_listed (o : string) (e : opacity_entry) :
  currentOpacity o = Entry e -> e ∈ [light; standard; dark; opaque].
Proof.
  unfold currentOpacity, or_default.
  destruct (get opacityMap o) as [ | n | a] eqn:Hget; intros H; inversion H; subst.
  - set_solver.
  - now apply get_listed in Hget.
Qed.

Lemma currentOpacity_foreign (o : string) :
  (exists n, currentOpacity o = Foreign n) <-> o ∈ Object_prototype.
Proof.
  unfold currentOpacity, or_default. split.
  - intros [n H]. destruct (get opacityMap o) as [ | m | a] eqn:Hget;
      try discriminate H.
    now apply get_Inherited in Hget as (_ & Hin & _).
  - intros Hin. exists o.
    assert (Hget : get opacityMap o = Inherited o).
    { apply get_Inherited. auto using opacity_names_not_inherited. }
    now rewrite Hget.
Qed.

Lemma variantSpread_throws (v : string) :
  throws (variantSpread v) = true <-> v ∈ Object_prototype.
Proof.
  unfold variantSpread, or_default. split.
  - destruct (get variantClasses v) as [ | m | a] eqn:Hget; try discriminate.
    intros _. now apply get_Inherited in Hget as (_ & Hin & _).
  - intros Hin.
    assert (Hget : get variantClasses v = Inherited v).
    { apply get_Inherited. auto using variant_names_not_inherited. }
    now rewrite Hget.
Qed.

Lemma variantSpread_shape (v : string) (classes : list (option string)) :
  variantSpread v = Normal classes ->
  length classes = 2%nat /\ List.filter hover_class classes = [].
Proof.
  unfold variantSpread, or_default.
  destruct (get variantClasses v) as [ | m | l] eqn:Hget; intros H;
    inversion H; subst; clear H.
  - split; reflexivity.
  - apply get_listed in Hget. simpl in Hget.
    repeat (apply elem_of_cons in Hget as [-> | Hget]; [split; reflexivity |]).
    now apply elem_of_nil in Hget.
Qed.

Lemma baseClasses_shape (o : string) :
  length (baseClasses (currentOpacity o)) = 13%nat /\
  List.filter hover_class (baseClasses (currentOpacity o)) = [].
Proof.
  destruct (currentOpacity o) as [e | n] eqn:Hcur.
  - apply currentOpacity_listed in Hcur.
    repeat (apply elem_of_cons in Hcur as [-> | Hcur]; [split; reflexivity |]).
    now apply elem_of_nil in Hcur.
  - split; reflexivity.
Qed.

Lemma interactiveClasses_shape (o : string) (i : bool) (classes : list (option string)) :
  interactiveClasses i (currentOpacity o) = Normal classes ->
  length classes = (if i then 4 else 0)%nat /\
  List.filter hover_class classes = classes.
Proof.
  destruct i; simpl; [| intros H; inversion H; split; reflexivity].
  destruct (currentOpacity o) as [e | n] eqn:Hcur; [| discriminate].
  intros H; inversion H; subst; clear H.
  apply currentOpacity_listed in Hcur.
  repeat (apply elem_of_cons in Hcur as [-> | Hcur]; [split; reflexivity |]).
  now apply elem_of_nil in Hcur.
Qed.

End BaseShellClasses.

(** X6.  Building the class list of the base shell raises exactly in two
    cases: the opacity is a name inherited from [Object.prototype] and the
    card is interactive, or the variant is such a name.  Every other
    combination of strings resolves. *)
Theorem resolve_raises_iff :
  forall (o v : string) (i : bool) (c : string),
    JS.throws (GlassCard.resolve o v i c) = true <->
    (i = true /\ o ∈ JS.Object_prototype) \/ v ∈ JS.Object_prototype.
Proof.
  intros o v i c. unfold GlassCard.resolve.
  pose proof (currentOpacity_foreign o) as Ho.
  pose proof (variantSpread_throws v) as Hv.
  destruct (GlassCard.variantSpread v) as [var | err]; simpl in Hv.
  - destruct i; simpl.
    + destruct (GlassCard.currentOpacity o) as [e | n]; simpl.
      * split; [discriminate |].
        intros [[_ Hin] | Hin].
        -- apply Ho in Hin as [m Hm]. discriminate Hm.
        -- apply Hv in Hin. discriminate Hin.
      * split; [| reflexivity].
        intros _. left. split; [reflexivity |]. apply Ho. now exists n.
    + split; [discriminate |].
      intros [[Hi _] | Hin]; [discriminate Hi |].
      apply Hv in Hin. discriminate Hin.
  - assert (Hin : v ∈ JS.Object_prototype) by now apply Hv.
    split; [intros _; now right |]. intros _.
    destruct (GlassCard.interactiveClasses i (GlassCard.currentOpacity o)); reflexivity.
Qed.

(** X7.  Whenever the base shell resolves, the caller's class name is the
    last item of the class list, after the fifteen classes of the shell and
    of the variant; an interactive card has four more classes, the only ones
    that take effect under the pointer, and a card that is not interactive
    has none of those. *)
Theorem class_list_shape :
  forall (o v : string) (i : bool) (c : string) (l : list (option string)),
    GlassCard.resolve o v i c = JS.Normal l ->
    exists front,
      l = (front ++ [Some c])%list /\
      length front = (if i then 19 else 15)%nat /\
      length (List.filter GlassCardChannels.hover_class front) = (if i then 4 else 0)%nat.
Proof.
  intros o v i c l. unfold GlassCard.resolve.
  destruct (GlassCard.interactiveClasses i (GlassCard.currentOpacity o))
    as [inter | err] eqn:Hinter; [| discriminate].
  destruct (GlassCard.variantSpread v) as [var | err] eqn:Hvar; [| discriminate].
  simpl. intros H; inversion H; subst l; clear H.
  destruct (baseClasses_shape o) as [Hblen Hbhov].
  destruct (variantSpread_shape v var Hvar) as [Hvlen Hvhov].
  destruct (interactiveClasses_shape o i inter Hinter) as [Hilen Hihov].
  exists (GlassCard.baseClasses (GlassCard.currentOpacity o) ++ var ++ inter)%list.
  split; [now rewrite <- !app_assoc |].
  split.
  - rewrite !length_app, Hblen, Hvlen, Hilen. now destruct i.
  - rewrite !List.filter_app, Hbhov, Hvhov, Hihov. simpl. exact Hilen.
Qed.

Lemma class_list_shape_witness :
  exists front,
    [Some "bg-white/45"; Some "backdrop-blur-[16px]";
     Some "-webkit-backdrop-filter-blur-[16px]"; Some "border";
     Some "border-white/60"; Some "border-b-white/30"; Some "border-r-white/30";
     Some "shadow-[0_8px_32px_0_rgba(31,38,135,0.04)]"; Some "rounded-3xl";
     Some "p-6"; Some "transition-all"; Some "duration-300"; Some "ease-in-out";
     Some "w-36"; Some "h-36"; Some "mine"]
    = (front ++ [Some "mine"])%list /\
    length front = 15%nat /\
    length (List.filter GlassCardChannels.hover_class front) = 0%nat.
Proof.
  apply (class_list_shape "light" "small" false "mine"). reflexivity.
Defined.

(** X8.  Every entry the base shell can resolve to paints its top and left
    edges at least as opaque as its bottom and right edges, and paints the
    bottom and the right edge alike. *)
Theorem edges_single_light_source :
  forall (o : string) (e : GlassCard.opacity_entry),
    GlassCard.currentOpacity o = JS.Entry e ->
    exists (t b r : Q),
      GlassCardChannels.topLeftAlpha e = Some t /\
      GlassCardChannels.bottomAlpha e = Some b /\
      GlassCardChannels.rightAlpha e = Some r /\
      (b <= t)%Q /\ (r <= t)%Q /\ b = r /\ (t <= 1)%Q.
Proof.
  intros o e He. apply currentOpacity_listed in He.
  repeat (apply elem_of_cons in He as [-> | He];
          [do 3 eexists; do 3 (split; [vm_compute; reflexivity |]);
           repeat split; unfold Qle; simpl; lia |]).
  now apply elem_of_nil in He.
Qed.

Lemma edges_single_light_source_witness :
  exists (t b r : Q),
    GlassCardChannels.topLeftAlpha GlassCard.standard = Some t /\
    GlassCardChannels.bottomAlpha GlassCard.standard = Some b /\
    GlassCardChannels.rightAlpha GlassCard.standard = Some r /\
    (b <= t)%Q /\ (r <= t)%Q /\ b = r /\ (t <= 1)%Q.
Proof.
  apply (edges_single_light_source "no-such-tier" GlassCard.standard). reflexivity.
Defined.

(** X9.  Every entry the base shell can resolve to becomes more opaque under
    the pointer: the hovered background alpha is above the resting one and at
    most 1, and the hovered shadow colour is more opaque than the resting
    one. *)
Theorem hover_raises_alpha :
  forall (o : string) (e : GlassCard.opacity_entry),
    GlassCard.currentOpacity o = JS.Entry e ->
    exists (a h sa sh : Q),
      GlassCardChannels.restingBackground e = Some a /\
      GlassCardChannels.hoverBackground e = Some h /\
      GlassCardChannels.restingShadow e = Some sa /\
      GlassCardChannels.hoverShadow e = Some sh /\
      (a < h)%Q /\ (h <= 1)%Q /\ (sa < sh)%Q.
Proof.
  intros o e He. apply currentOpacity_listed in He.
  repeat (apply elem_of_cons in He as [-> | He];
          [do 4 eexists; do 4 (split; [vm_compute; reflexivity |]);
           repeat split; unfold Qle, Qlt; simpl; lia |]).
  now apply elem_of_nil in He.
Qed.

Lemma hover_raises_alpha_witness :
  exists (a h sa sh : Q),
    GlassCardChannels.restingBackground GlassCard.opaque = Some a /\
    GlassCardChannels.hoverBackground GlassCard.opaque = Some h /\
    GlassCardChannels.restingShadow GlassCard.opaque = Some sa /\
    GlassCardChannels.hoverShadow GlassCard.opaque = Some sh /\
    (a < h)%Q /\ (h <= 1)%Q /\ (sa < sh)%Q.
Proof.
  apply (hover_raises_alpha "opaque" GlassCard.opaque). reflexivity.
Defined.

(** X10.  The transparency demo and the card agree: every opacity the demo
    passes to a card is one the card declares, and the percentage the demo
    prints beside a variant is the background alpha the card resolves for
    it. *)
Theorem demo_percentages_match_card :
  Forall (fun row =>
            GlassTransparencyDemo.value row ∈ GlassCard.propTypes_opacity /\
            exists a,
              GlassTransparencyDemo.fraction (GlassTransparencyDemo.percentage row) = Some a /\
              forall (v : string) (i : bool) (c : string),
                JS.throws (GlassCard.variantSpread v) = false ->
                GlassCard.channel GlassCard.backgroundAlpha
                  (GlassCard.resolve (GlassTransparencyDemo.value row) v i c) = Some a)
         GlassTransparencyDemo.opacityVariants /\
  Forall (fun o => o ∈ GlassCard.propTypes_opacity) GlassTransparencyDemo.sceneCards.
Proof.
  split.
  - unfold GlassTransparencyDemo.opacityVariants.
    repeat (apply Forall_cons; split;
            [split; [unfold GlassCard.propTypes_opacity; simpl; set_solver |];
             eexists; split; [vm_compute; reflexivity |];
             intros v i c Hv; unfold GlassCard.resolve;
             destruct (GlassCard.variantSpread v); [| discriminate Hv];
             destruct i; reflexivity |]).
    constructor.
  - unfold GlassTransparencyDemo.sceneCards, GlassCard.propTypes_opacity.
    repeat (apply Forall_cons; split; [set_solver |]).
    constructor.
Qed.

Lemma demo_percentages_match_card_witness :
  GlassCard.channel GlassCard.backgroundAlpha
    (GlassCard.resolve "light" "small" true "") = Some (45 # 100)%Q.
Proof.
  pose proof (proj1 demo_percentages_match_card) as Hrows.
  apply Forall_cons in Hrows as [[_ (a & Ha & Hrow)] _].
  transitivity (Some a); [exact (Hrow "small" true "" eq_refl) |].
  rewrite <- Ha. reflexivity.
Defined.

(** ** The hover handlers of the frosted shell *)

Section FrostedHover.
Import JS FrostedGlassPanel FrostedGlassPanelHover.

Lemma configKey_not_inherited (v o : string) : configKey v o ∉ Object_prototype.
Proof.
  unfold configKey, Object_prototype. intros H.
  destruct (String.eqb v "nav"); simpl in H;
    repeat (apply elem_of_cons in H as [H | H]; [discriminate H |]);
    now apply elem_of_nil in H.
Qed.

Lemma config_names_not_inherited (key : string) :
  key ∈ Object_prototype -> opacityConfig !! key = None.
Proof.
  unfold Object_prototype. intros H.
  repeat (apply elem_of_cons in H as [-> | H]; [reflexivity |]).
  now apply elem_of_nil in H.
Qed.

Lemma configKey_of_inherited (v o : string) :
  o ∈ Object_prototype -> get opacityConfig (configKey v o) = Undefined.
Proof.
  unfold Object_prototype, configKey. intros H.
  destruct (String.eqb v "nav");
    repeat (apply elem_of_cons in H as [-> | H]; [reflexivity |]);
    now apply elem_of_nil in H.
Qed.

Lemma config_foreign (v o : string) :
  (exists n, config v o = Foreign n) <-> o ∈ Object_prototype.
Proof.
  unfold config, or_default, or. split.
  - intros [n H].
    destruct (get opacityConfig (configKey v o)) as [ | m | a] eqn:Hkey;
      try discriminate H.
    + destruct (get opacityConfig o) as [ | m | a] eqn:Hop; try discriminate H.
      now apply get_Inherited in Hop as (_ & Hin & _).
    + apply get_Inherited in Hkey as (_ & Hin & _).
      now apply configKey_not_inherited in Hin.
  - intros Hin. exists o.
    rewrite (configKey_of_inherited v o Hin).
    assert (Hget : get opacityConfig o = Inherited o).
    { apply get_Inherited. auto using config_names_not_inherited. }
    now rewrite Hget.
Qed.

Lemma hovered_shadow_listed :
  Forall (fun e =>
            let before := CSS.shadow_layers (shadow e) in
            let after := CSS.shadow_layers (replace_black (shadow e)) in
            CSS.inset <$> after = CSS.inset <$> before /\
            (fun l => offsets_of (CSS.geometry l)) <$> after
            = (fun l => offsets_of (CSS.geometry l)) <$> before /\
            is_black <$> after = is_black <$> before /\
            Forall2 (fun b a => if is_black b
                                then layer_alpha a = Some (5 # 10)%Q
                                else a = b) before after /\
            Forall (fun b => is_black b = true ->
                             match layer_alpha b with
                             | Some q => (q <= 5 # 10)%Q
                             | None => False
                             end) before)
         entries.
Proof.
  unfold entries.
  repeat (apply Forall_cons; split;
          [cbv zeta;
           match goal with
           | |- context [CSS.shadow_layers (replace_black ?s)] =>
               let after := eval vm_compute in (CSS.shadow_layers (replace_black s)) in
               let Ha := fresh "Ha" in
               assert (Ha : CSS.shadow_layers (replace_black s) = after)
                 by (vm_compute; reflexivity);
               rewrite Ha; clear Ha;
               let before := eval vm_compute in (CSS.shadow_layers s) in
               let Hb := fresh "Hb" in
               assert (Hb : CSS.shadow_layers s = before)
                 by (vm_compute; reflexivity);
               rewrite Hb; clear Hb
           end;
           split; [vm_compute; reflexivity |];
           split; [vm_compute; reflexivity |];
           split; [vm_compute; reflexivity |];
           split;
           [repeat (constructor; [vm_compute; reflexivity |]); constructor
           |repeat (constructor; [vm_compute; easy |]); constructor]
          |]).
  constructor.
Qed.

End FrostedHover.

(** X11.  Entering an interactive frosted panel that resolved to a table
    entry lifts it by five pixels and rewrites its shadow layer by layer:
    the layers keep their number, order, inset flags and offsets, every
    black layer gets the alpha 0.5, which is at least the alpha it had, and
    the white layers are left as they are. *)
Theorem hover_sets_black_layers_to_half :
  forall (o v : string) (e : FrostedGlassPanel.config_entry)
         (el : FrostedGlassPanelHover.inline),
    FrostedGlassPanel.config v o = JS.Entry e ->
    let before := CSS.shadow_layers (FrostedGlassPanel.shadow e) in
    let hovered := FrostedGlassPanelHover.replace_black (FrostedGlassPanel.shadow e) in
    let after := CSS.shadow_layers hovered in
    FrostedGlassPanelHover.handleHover o v true el
    = ({| FrostedGlassPanelHover.transform := Some "translateY(-5px)";
          FrostedGlassPanelHover.boxShadow := Some hovered |}, None) /\
    CSS.inset <$> after = CSS.inset <$> before /\
    (fun l => FrostedGlassPanelHover.offsets_of (CSS.geometry l)) <$> after
    = (fun l => FrostedGlassPanelHover.offsets_of (CSS.geometry l)) <$> before /\
    FrostedGlassPanelHover.is_black <$> after = FrostedGlassPanelHover.is_black <$> before /\
    Forall2 (fun b a => if FrostedGlassPanelHover.is_black b
                        then FrostedGlassPanelHover.layer_alpha a = Some (5 # 10)%Q
                        else a = b) before after /\
    Forall (fun b => FrostedGlassPanelHover.is_black b = true ->
                     match FrostedGlassPanelHover.layer_alpha b with
                     | Some q => (q <= 5 # 10)%Q
                     | None => False
                     end) before.
Proof.
  intros o v e el He before hovered after.
  split.
  - unfold FrostedGlassPanelHover.handleHover. rewrite He. reflexivity.
  - apply config_listed in He.
    exact (proj1 (Forall_forall _ _) hovered_shadow_listed e He).
Qed.

Lemma hover_sets_black_layers_to_half_witness :
  FrostedGlassPanelHover.is_black
    <$> CSS.shadow_layers
          (FrostedGlassPanelHover.replace_black
             (FrostedGlassPanel.shadow FrostedGlassPanel.contentDark))
  = FrostedGlassPanelHover.is_black
    <$> CSS.shadow_layers (FrostedGlassPanel.shadow FrostedGlassPanel.contentDark).
Proof.
  destruct (hover_sets_black_layers_to_half "dark" "content" FrostedGlassPanel.contentDark
              {| FrostedGlassPanelHover.transform := None;
                 FrostedGlassPanelHover.boxShadow := None |} eq_refl)
    as (_ & _ & _ & Hblack & _).
  exact Hblack.
Defined.



(** X13.  The render of a frosted panel never raises, but entering the
    panel does, exactly when the panel is interactive and its opacity is a
    name inherited from [Object.prototype]; the transform has been written by
    then. *)
Theorem hover_raises_iff :
  forall (o v : string) (i : bool) (el : FrostedGlassPanelHover.inline),
    (snd (FrostedGlassPanelHover.handleHover o v i el) <> None <->
     i = true /\ o ∈ JS.Object_prototype) /\
    (snd (FrostedGlassPanelHover.handleHover o v i el) <> None ->
     FrostedGlassPanelHover.transform (fst (FrostedGlassPanelHover.handleHover o v i el))
     = Some "translateY(-5px)").
Proof.
  intros o v i el. unfold FrostedGlassPanelHover.handleHover.
  pose proof (config_foreign v o) as Hf.
  destruct i; simpl.
  - destruct (FrostedGlassPanel.config v o) as [e | n]; simpl.
    + split; [| intros H; now contradiction H].
      split; [intros H; now contradiction H |].
      intros [_ Hin]. apply Hf in Hin as [m Hm]. discriminate Hm.
    + split; [| reflexivity].
      split; [| discriminate].
      intros _. split; [reflexivity |]. apply Hf. now exists n.
  - split; [| intros H; now contradiction H].
    split; [intros H; now contradiction H | intros [Hi _]; discriminate Hi].
Qed.

Lemma hover_raises_iff_witness :
  FrostedGlassPanelHover.transform
    (fst (FrostedGlassPanelHover.handleHover "valueOf" "nav" true
            {| FrostedGlassPanelHover.transform := None;
               FrostedGlassPanelHover.boxShadow := None |}))
  = Some "translateY(-5px)".
Proof.
  apply (proj2 (hover_raises_iff "valueOf" "nav" true
                  {| FrostedGlassPanelHover.transform := None;
                     FrostedGlassPanelHover.boxShadow := None |})).
  discriminate.
Defined.

(** X14.  The props a caller adds to a frosted panel win over the four
    attributes the panel sets on its root element.  When the caller supplies
    a [style], the resolved style reaches the element under no attribute at
    all (the two are not merged); without one the element carries it under
    [style]. *)
Theorem supplied_props_override_root :
  forall (V : Type) (p : FrostedGlassPanel.props) (rest : gmap string V),
    (forall (k : string) (x : V),
       rest !! k = Some x ->
       FrostedGlassPanelHover.root_attributes p rest !! k
       = Some (FrostedGlassPanelHover.Supplied x)) /\
    (forall (k : string) (st : FrostedGlassPanel.style),
       FrostedGlassPanelHover.root_attributes p rest !! k
       = Some (FrostedGlassPanelHover.ComputedStyle st) ->
       k = "style" /\ rest !! "style" = None /\
       st = FrostedGlassPanel.resolve (FrostedGlassPanel.opacity p)
              (FrostedGlassPanel.variant p) (FrostedGlassPanel.size p)
              (FrostedGlassPanel.interactive p)) /\
    (rest !! "style" = None ->
     FrostedGlassPanelHover.root_attributes p rest !! "style"
     = Some (FrostedGlassPanelHover.ComputedStyle
               (FrostedGlassPanel.resolve (FrostedGlassPanel.opacity p)
                  (FrostedGlassPanel.variant p) (FrostedGlassPanel.size p)
                  (FrostedGlassPanel.interactive p)))).
Proof.
  intros V p rest. unfold FrostedGlassPanelHover.root_attributes.
  split; [| split].
  - intros k x Hk. apply lookup_union_Some_l. now rewrite lookup_fmap, Hk.
  - intros k st H. apply lookup_union_Some_raw in H as [H | [Hnone H]].
    + rewrite lookup_fmap in H. destruct (rest !! k); discriminate H.
    + rewrite lookup_fmap in Hnone.
      unfold FrostedGlassPanelHover.own_attributes in H.
      apply elem_of_list_to_map_2 in H.
      repeat (apply elem_of_cons in H as [H | H];
              [inversion H; subst; clear H |]);
        try (now apply elem_of_nil in H).
      split; [reflexivity |]. split; [| reflexivity].
      now destruct (rest !! "style").
  - intros Hnone. rewrite lookup_union_r; [reflexivity |].
    now rewrite lookup_fmap, Hnone.
Qed.

Lemma supplied_props_override_root_witness :
  FrostedGlassPanelHover.root_attributes (FrostedGlassPanel.defaults None)
    ({[ "style" := "position: sticky" ]} : gmap string string) !! "style"
  = Some (FrostedGlassPanelHover.Supplied "position: sticky").
Proof.
  apply (proj1 (supplied_props_override_root string (FrostedGlassPanel.defaults None)
                  {[ "style" := "position: sticky" ]})).
  reflexivity.
Defined.

(** X15.  In the frosted shell the first letter of the opacity is
    capitalized before the variant-specific lookup, so two opacities that
    capitalize alike resolve alike whenever that lookup finds an entry:
    "Light" is "light".  The lookup finds nothing for "opaque", which leaves
    "Opaque" to fall back to the [standard] entry. *)
Theorem capitalized_opacity :
  (forall (v o1 o2 : string),
     JS.capitalize o1 = JS.capitalize o2 ->
     JS.get FrostedGlassPanel.opacityConfig (FrostedGlassPanel.configKey v o1) <> JS.Undefined ->
     FrostedGlassPanel.config v o1 = FrostedGlassPanel.config v o2) /\
  (forall (v : string),
     FrostedGlassPanel.config v "Light" = FrostedGlassPanel.config v "light" /\
     FrostedGlassPanel.config v "opaque" = JS.Entry FrostedGlassPanel.opaque /\
     FrostedGlassPanel.config v "Opaque" = JS.Entry FrostedGlassPanel.standard).
Proof.
  split.
  - intros v o1 o2 Hcap Hkey.
    assert (Hsame : FrostedGlassPanel.configKey v o1 = FrostedGlassPanel.configKey v o2)
      by (unfold FrostedGlassPanel.configKey; now rewrite Hcap).
    unfold FrostedGlassPanel.config. rewrite <- Hsame.
    destruct (JS.get FrostedGlassPanel.opacityConfig (FrostedGlassPanel.configKey v o1));
      [contradiction | reflexivity | reflexivity].
  - intros v. unfold FrostedGlassPanel.config, FrostedGlassPanel.configKey.
    destruct (String.eqb v "nav"); repeat split.
Qed.

Lemma capitalized_opacity_witness :
  FrostedGlassPanel.config "content" "Dark" = FrostedGlassPanel.config "content" "dark".
Proof.
  apply (proj1 capitalized_opacity "content" "Dark" "dark"); [reflexivity | discriminate].
Defined.

(** ** The icon card and the trip card *)

Section Cards.
Import JS.

Lemma decimal_value (a : nat) :
  Nat.of_uint <$> NilZero.uint_of_string (TripCard.decimal a) = Some a.
Proof.
  unfold TripCard.decimal.
  pose proof (DecimalNat.Unsigned.of_to a) as Ha.
  destruct (Nat.to_uint a) eqn:E;
    [rewrite NilZero.usu_nil | rewrite NilZero.usu by discriminate ..];
    simpl; f_equal; exact Ha.
Qed.

Lemma decimal_inj (a b : nat) : TripCard.decimal a = TripCard.decimal b -> a = b.
Proof.
  intros H. pose proof (decimal_value a) as Ha. rewrite H, decimal_value in Ha.
  now inversion Ha.
Qed.

Lemma avatar_label_inj (i j : nat) :
  TripCard.avatar_aria_label (TripCard.avatar_of i)
  = TripCard.avatar_aria_label (TripCard.avatar_of j) -> i = j.
Proof.
  unfold TripCard.avatar_of; simpl. intros H. inversion H as [Hdec].
  apply decimal_inj in Hdec. lia.
Qed.

Lemma Array_from_length_small (z : Z) :
  0 <= z <= 2 ^ 32 - 1 ->
  TripCard.Array_from_length (Fin z) = Normal (Z.to_nat z).
Proof.
  intros Hz. unfold TripCard.Array_from_length, TripCard.ToLength.
  change (2 ^ 53 - 1) with 9007199254740991.
  change (2 ^ 32 - 1) with 4294967295 in *.
  replace (Z.min (Z.max z 0) 9007199254740991) with z by lia.
  destruct (Z.ltb_spec 4294967295 z); [lia | reflexivity].
Qed.

End Cards.

(** X16.  A trip card given a whole number of participants between 0 and
    2^32 - 1 renders, with exactly that many avatars; the avatar at index i
    has the key i and the label numbered i + 1. *)
Theorem trip_card_avatars :
  forall (p : TripCard.props) (z : Z),
    TripCard.participants p = JS.Fin z ->
    0 <= z <= 2 ^ 32 - 1 ->
    exists v,
      TripCard.render p = JS.Normal v /\
      length (TripCard.participant_list v) = Z.to_nat z /\
      forall (i : nat), (i < Z.to_nat z)%nat ->
        TripCard.participant_list v !! i
        = Some {| TripCard.key := i;
                  TripCard.avatar_aria_label := "参与者 " +:+ TripCard.decimal (i + 1) |}.
Proof.
  intros p z Hp Hz. unfold TripCard.render, TripCard.avatars.
  rewrite Hp, (Array_from_length_small z Hz). simpl.
  eexists. split; [reflexivity |]. simpl. split.
  - now rewrite length_map, length_seq.
  - intros i Hi. rewrite list_lookup_fmap, lookup_seq_lt by exact Hi. reflexivity.
Qed.

Lemma trip_card_avatars_witness :
  exists v,
    TripCard.render TripCard.defaults = JS.Normal v /\
    length (TripCard.participant_list v) = 2%nat /\
    forall (i : nat), (i < 2)%nat ->
      TripCard.participant_list v !! i
      = Some {| TripCard.key := i;
                TripCard.avatar_aria_label := "参与者 " +:+ TripCard.decimal (i + 1) |}.
Proof.
  apply (trip_card_avatars TripCard.defaults 2 eq_refl). split; [lia | now vm_compute].
Defined.



(** X18.  Whenever a trip card renders, no two of its avatars share a key
    or an accessible label. *)
Theorem trip_card_labels_distinct :
  forall (p : TripCard.props) (v : TripCard.view),
    TripCard.render p = JS.Normal v ->
    NoDup (TripCard.key <$> TripCard.participant_list v) /\
    NoDup (TripCard.avatar_aria_label <$> TripCard.participant_list v).
Proof.
  intros p v. unfold TripCard.render, TripCard.avatars.
  destruct (TripCard.Array_from_length (TripCard.participants p)) as [n | err];
    [| discriminate].
  simpl. intros H; inversion H; subst v; clear H. simpl.
  rewrite <- !list_fmap_compose. split.
  - apply NoDup_fmap_2; [| apply NoDup_seq].
    intros i j Hij. exact Hij.
  - apply NoDup_fmap_2; [| apply NoDup_seq].
    intros i j Hij. now apply avatar_label_inj.
Qed.

Lemma trip_card_labels_distinct_witness :
  exists v, TripCard.render TripCard.defaults = JS.Normal v /\
            NoDup (TripCard.avatar_aria_label <$> TripCard.participant_list v).
Proof.
  eexists. split; [reflexivity |].
  apply (proj2 (trip_card_labels_distinct TripCard.defaults _ eq_refl)).
Defined.

(** X19.  On an icon card with an [onClick], a key-down whose code is
    [Space] or [Enter] prevents the default action and calls [onClick] once,
    handing it the key-down event where a click hands it the click; any other
    key does nothing.  A card without [onClick] answers neither keys nor
    clicks and is taken out of the tab order, while the card with one is in
    it. *)
Theorem icon_card_keyboard :
  forall (W : Type) (p : IconCard.props W) (code suffix : string) (w : W),
    (forall callback,
       IconCard.onClick p = Some callback ->
       IconCard.handleClick p w = callback IconCard.Click w /\
       IconCard.card_tabIndex (IconCard.render p suffix) = 0 /\
       (code = "Space" \/ code = "Enter" ->
        IconCard.handleKeyDown p code w = (callback (IconCard.KeyDown code) w, true)) /\
       (code <> "Space" -> code <> "Enter" ->
        IconCard.handleKeyDown p code w = (w, false))) /\
    (IconCard.onClick p = None ->
     IconCard.handleClick p w = w /\
     IconCard.handleKeyDown p code w = (w, false) /\
     IconCard.card_tabIndex (IconCard.render p suffix) = -1).
Proof.
  intros W p code suffix w. split.
  - intros callback Hcb.
    unfold IconCard.handleClick, IconCard.handleKeyDown, IconCard.render; simpl.
    rewrite Hcb. split; [reflexivity |]. split; [reflexivity |]. split.
    + intros [-> | ->]; reflexivity.
    + intros HS HE.
      destruct (String.eqb_spec code "Space"); [contradiction |].
      destruct (String.eqb_spec code "Enter"); [contradiction |].
      reflexivity.
  - intros Hnone.
    unfold IconCard.handleClick, IconCard.handleKeyDown, IconCard.render; simpl.
    rewrite Hnone. repeat split.
Qed.

Lemma icon_card_keyboard_witness :
  let p := {| IconCard.icon := "F"; IconCard.label := "Files";
              IconCard.description := None;
              IconCard.onClick := Some (fun a (calls : list IconCard.activation) =>
                                          (calls ++ [a])%list) |} in
  IconCard.handleKeyDown p "Enter" [] = ([IconCard.KeyDown "Enter"], true) /\
  IconCard.handleKeyDown p "Tab" [] = ([], false).
Proof.
  intros p.
  destruct (proj1 (icon_card_keyboard (list IconCard.activation) p "Enter" "x" [])
              _ eq_refl) as (_ & _ & Hconfirm & _).
  destruct (proj1 (icon_card_keyboard (list IconCard.activation) p "Tab" "x" [])
              _ eq_refl) as (_ & _ & _ & Hother).
  split; [apply Hconfirm; now right | apply Hother; discriminate].
Defined.

(** X20.  In every render of an icon card the reference from the card to
    its description is sound: [aria-describedby] is set exactly when the
    description paragraph is rendered, it then names the id of that very
    paragraph, and the paragraph holds the non-empty description. *)
Theorem icon_card_description_reference :
  forall (W : Type) (p : IconCard.props W) (suffix : string),
    let v := IconCard.render p suffix in
    match IconCard.card_aria_describedby v with
    | Some id =>
        exists d, IconCard.description_paragraph v = Some (id, d) /\
                  IconCard.description p = Some d /\ d <> ""
    | None =>
        IconCard.description_paragraph v = None /\
        (IconCard.description p = None \/ IconCard.description p = Some "")
    end.
Proof.
  intros W p suffix v. subst v. unfold IconCard.render, IconCard.described; simpl.
  destruct (IconCard.description p) as [d | ].
  - destruct (String.eqb_spec d ""); simpl.
    + subst d. split; [reflexivity | now right].
    + exists d. repeat split. assumption.
  - split; [reflexivity | now left].
Qed.

(** ** The rewrite of the shadow on every string *)

Section Rewrite.
Import FrostedGlassPanelHover.

Lemma replace_from_step (c : ascii) (rest : string) :
  replace_from 0 (String c rest)
  = match match_length (String c rest) with
    | Some n => "rgba(0, 0, 0, 0.5)" +:+ replace_from (Nat.pred n) rest
    | None => String c (replace_from 0 rest)
    end.
Proof. reflexivity. Qed.

Lemma strip_prefix_cons (a b : ascii) (q s : string) :
  CSS.strip_prefix (String a q) (String b s)
  = if Ascii.eqb a b then CSS.strip_prefix q s else None.
Proof. reflexivity. Qed.

Lemma replace_from_drop (k : nat) (s : string) :
  replace_from k s = replace_from 0 (drop k s).
Proof.
  revert k. induction s as [ | c rest IH]; intros [ | k]; try reflexivity.
  cbn [replace_from drop]. apply IH.
Qed.

Lemma match_length_head (d : ascii) (y : string) (n : nat) :
  match_length (String d y) = Some n -> d = "r"%char.
Proof.
  unfold match_length. cbn [CSS.strip_prefix].
  destruct (Ascii.eqb_spec "r" d) as [<- | Hd]; [reflexivity | discriminate].
Qed.

Lemma replace_other_head (d : ascii) (y : string) :
  d <> "r"%char -> replace_from 0 (String d y) = String d (replace_from 0 y).
Proof.
  intros Hd. rewrite replace_from_step.
  destruct (match_length (String d y)) as [n | ] eqn:Hm; [| reflexivity].
  now apply match_length_head in Hm.
Qed.

(** The rewrite keeps the first character of a string. *)
Lemma replace_head (x : string) :
  match x with
  | EmptyString => replace_from 0 x = EmptyString
  | String d _ => exists z, replace_from 0 x = String d z
  end.
Proof.
  destruct x as [ | d y]; [reflexivity |].
  rewrite replace_from_step.
  destruct (match_length (String d y)) as [n | ] eqn:Hm.
  - apply match_length_head in Hm. subst d. eexists. reflexivity.
  - eexists. reflexivity.
Qed.

Lemma strip_prefix_replace (q x : string) :
  forallb (fun a => negb (Ascii.eqb a "r")) (list_ascii_of_string q) = true ->
  CSS.strip_prefix q (replace_from 0 x) = replace_from 0 <$> CSS.strip_prefix q x.
Proof.
  revert x. induction q as [ | a q IH]; intros x Hq; [reflexivity |].
  simpl in Hq. apply andb_prop in Hq as [Ha Hq].
  destruct x as [ | d y]; [reflexivity |].
  destruct (Ascii.eqb_spec a d) as [<- | Hne].
  - rewrite replace_other_head.
    + cbn [CSS.strip_prefix]. rewrite Ascii.eqb_refl. now apply IH.
    + intros ->. discriminate Ha.
  - destruct (replace_head (String d y)) as [z ->].
    cbn [CSS.strip_prefix].
    destruct (Ascii.eqb_spec a d); [contradiction | reflexivity].
Qed.

Lemma class_not_r (a : ascii) : in_class a = true -> a <> "r"%char.
Proof. intros H ->. discriminate H. Qed.

Lemma class_run_replace (t : string) :
  class_run (replace_from 0 t) = class_run t /\
  drop (class_run t) (replace_from 0 t) = replace_from 0 (drop (class_run t) t).
Proof.
  induction t as [ | a t [IHrun IHdrop]]; [split; reflexivity |].
  destruct (in_class a) eqn:Ha.
  - rewrite (replace_other_head a t (class_not_r a Ha)).
    cbn [class_run]. rewrite Ha. cbn [drop]. rewrite IHrun. split; [reflexivity | exact IHdrop].
  - destruct (replace_head (String a t)) as [z Hz].
    cbn [class_run]. rewrite Ha. rewrite Hz. cbn [class_run]. rewrite Ha.
    split; [reflexivity |]. cbn [drop]. now rewrite <- Hz.
Qed.

(** Whether a match starts at a character is not affected by rewriting
    what follows that character. *)
Lemma match_length_replace (c : ascii) (rest : string) :
  match_length (String c (replace_from 0 rest)) = match_length (String c rest).
Proof.
  unfold match_length. rewrite !strip_prefix_cons.
  destruct (Ascii.eqb "r" c); [| reflexivity].
  rewrite (strip_prefix_replace "gba(0, 0, 0, " rest eq_refl).
  destruct (CSS.strip_prefix "gba(0, 0, 0, " rest) as [t | ]; [| reflexivity].
  cbn [fmap option_fmap option_map].
  destruct (class_run_replace t) as [Hrun Hdrop].
  rewrite Hrun. destruct (class_run t) as [ | k] eqn:Hk; [reflexivity |].
  rewrite Hdrop.
  pose proof (replace_head (drop (S k) t)) as Hhead.
  destruct (drop (S k) t) as [ | d u].
  - now rewrite Hhead.
  - destruct Hhead as [z ->]. reflexivity.
Qed.

Lemma replace_replacement (z : string) :
  replace_from 0 ("rgba(0, 0, 0, 0.5)" +:+ z)
  = "rgba(0, 0, 0, 0.5)" +:+ replace_from 0 z.
Proof. reflexivity. Qed.

Lemma drop_length (k : nat) (s : string) :
  (String.length (drop k s) <= String.length s)%nat.
Proof.
  revert k. induction s as [ | c rest IH]; intros [ | k]; simpl; try lia.
  specialize (IH k). lia.
Qed.

Lemma replace_idempotent_bounded (n : nat) (s : string) :
  (String.length s <= n)%nat ->
  replace_from 0 (replace_from 0 s) = replace_from 0 s.
Proof.
  revert s. induction n as [ | n IH]; intros s Hlen.
  - destruct s; [reflexivity | simpl in Hlen; lia].
  - destruct s as [ | c rest]; [reflexivity |].
    simpl in Hlen.
    rewrite replace_from_step.
    destruct (match_length (String c rest)) as [m | ] eqn:Hm.
    + rewrite replace_replacement. f_equal.
      rewrite (replace_from_drop (Nat.pred m) rest). apply IH.
      pose proof (drop_length (Nat.pred m) rest). lia.
    + rewrite replace_from_step, match_length_replace, Hm.
      f_equal. apply IH. lia.
Qed.

End Rewrite.

(** X21.  The rewrite that [handleHover] applies to a shadow is idempotent
    on every string: rewriting an already rewritten shadow changes nothing.
    A string without the letter r has no match and is returned as it is. *)
Theorem replace_black_idempotent :
  forall (s : string),
    FrostedGlassPanelHover.replace_black (FrostedGlassPanelHover.replace_black s)
    = FrostedGlassPanelHover.replace_black s /\
    (forallb (fun a => negb (Ascii.eqb a "r")) (list_ascii_of_string s) = true ->
     FrostedGlassPanelHover.replace_black s = s).
Proof.
  intros s. unfold FrostedGlassPanelHover.replace_black. split.
  - apply (replace_idempotent_bounded (String.length s)). lia.
  - induction s as [ | c rest IH]; [reflexivity |].
    cbn [list_ascii_of_string forallb]. intros H. apply andb_prop in H as [Hc Hrest].
    rewrite replace_other_head; [now rewrite IH |].
    intros ->. discriminate Hc.
Qed.

Lemma replace_black_idempotent_witness :
  FrostedGlassPanelHover.replace_black "inset 0 1px 0 #000" = "inset 0 1px 0 #000".
Proof.
  apply (proj2 (replace_black_idempotent "inset 0 1px 0 #000")). reflexivity.
Defined.

(** X22.  In the base shell every alpha channel grows with the tier, not
    only the background: along light, standard, dark, opaque the alpha of
    the top and left edges, of the bottom and right edges, of the resting
    and hovered shadow and of the hovered background never decreases. *)
Theorem every_alpha_grows_with_tier :
  Forall (fun channel : GlassCard.opacity_entry -> option Q =>
            exists alphas : list Q,
              map (fun tier => match GlassCard.currentOpacity tier with
                               | JS.Entry e => channel e
                               | JS.Foreign _ => None
                               end) GlassCard.propTypes_opacity
              = map Some alphas /\
              StronglySorted Qle alphas)
         [ GlassCardChannels.topLeftAlpha; GlassCardChannels.bottomAlpha;
           GlassCardChannels.rightAlpha; GlassCardChannels.restingShadow;
           GlassCardChannels.hoverBackground; GlassCardChannels.hoverShadow ].
Proof.
  assert (Hsorted : forall a b c d : Q,
             (a <= b)%Q -> (b <= c)%Q -> (c <= d)%Q -> StronglySorted Qle [a; b; c; d]).
  { intros a b c d Hab Hbc Hcd.
    assert (Hac : (a <= c)%Q) by (eapply Qle_trans; eassumption).
    assert (Hbd : (b <= d)%Q) by (eapply Qle_trans; eassumption).
    assert (Had : (a <= d)%Q) by (eapply Qle_trans; eassumption).
    repeat constructor; assumption. }
  constructor.
  { exists [60 # 100; 80 # 100; 95 # 100; 100 # 100]%Q.
    split; [vm_compute; reflexivity | apply Hsorted; unfold Qle; simpl; lia]. }
  constructor.
  { exists [30 # 100; 40 # 100; 70 # 100; 80 # 100]%Q.
    split; [vm_compute; reflexivity | apply Hsorted; unfold Qle; simpl; lia]. }
  constructor.
  { exists [30 # 100; 40 # 100; 70 # 100; 80 # 100]%Q.
    split; [vm_compute; reflexivity | apply Hsorted; unfold Qle; simpl; lia]. }
  constructor.
  { exists [4 # 100; 7 # 100; 1 # 10; 12 # 100]%Q.
    split; [vm_compute; reflexivity | apply Hsorted; unfold Qle; simpl; lia]. }
  constructor.
  { exists [55 # 100; 75 # 100; 90 # 100; 98 # 100]%Q.
    split; [vm_compute; reflexivity | apply Hsorted; unfold Qle; simpl; lia]. }
  constructor.
  { exists [8 # 100; 12 # 100; 14 # 100; 15 # 100]%Q.
    split; [vm_compute; reflexivity | apply Hsorted; unfold Qle; simpl; lia]. }
  constructor.
Qed.
